(** * h5p-game-map: the Exercise stage runtime

    A shallow embedding of [Exercise] (the per-stage runtime of the game map)
    and of the state-code table that [GameMap] publishes through [Globals].
    JavaScript objects become records, the mutable [this] and the event
    wiring become an explicit world, callbacks and calls into the embedded
    H5P instance are recorded in a trace, and a [TypeError] is an outcome of
    its own. *)

From Stdlib Require Import ZArith List String Ascii Bool Lia DecimalString.
Import ListNotations.

Open Scope string_scope.
Open Scope Z_scope.

(** ** JavaScript values *)

Module JS.

(** The primitive values the stage handles: state codes and scores are
    integers, flags are booleans, and both may be missing. *)
Inductive value : Type :=
| VUndefined
| VNull
| VBool (b : bool)
| VNumber (n : Z).

(** [ToBoolean]. *)
Definition truthy (v : value) : bool :=
  match v with
  | VUndefined | VNull => false
  | VBool b => b
  | VNumber n => negb (n =? 0)
  end.

(** [a === b]. *)
Definition strict_eq (a b : value) : bool :=
  match a, b with
  | VUndefined, VUndefined => true
  | VNull, VNull => true
  | VBool x, VBool y => Bool.eqb x y
  | VNumber x, VNumber y => x =? y
  | _, _ => false
  end.

(** [typeof v === 'number']. *)
Definition is_number (v : value) : bool :=
  match v with VNumber _ => true | _ => false end.

(** [ToNumber]; [None] stands for NaN. *)
Definition ToNumber (v : value) : option Z :=
  match v with
  | VUndefined => None
  | VNull => Some 0
  | VBool b => Some (if b then 1 else 0)
  | VNumber n => Some n
  end.

(** [a < b]: false as soon as one side is NaN. *)
Definition lt (a b : value) : bool :=
  match ToNumber a, ToNumber b with
  | Some x, Some y => x <? y
  | _, _ => false
  end.

(** [a > b]. *)
Definition gt (a b : value) : bool := lt b a.

(** [a ?? b]. *)
Definition nullish (a b : value) : value :=
  match a with
  | VUndefined | VNull => b
  | _ => a
  end.

(** The property key a number is converted to in [obj[n]]. *)
Definition ToPropertyKey (n : Z) : string :=
  NilZero.string_of_int (Z.to_int n).

(** The argument of [setState]: typed [number|string] in the source, any
    value at run time. [Name] is the case [typeof state === 'string']. *)
Inductive arg : Type :=
| Name (s : string)
| Val (v : value).

End JS.
Import JS.

(** ** The shared context *)

Module Globals.

(** Modelled from the spec: the registry [@services/globals] is not part
    of the sources; [get] answers the last value [set] under the key.
    [GameMap]'s constructor stores this table under ['states'], and
    [Exercise] reads it back with [Globals.get('states')]. *)
Definition states : list (string * Z) :=
  [ ("unstarted", 0);
    ("locked", 1);
    ("unlocking", 2);
    ("open", 3);
    ("opened", 4);
    ("completed", 5);
    ("cleared", 6) ].

(** [Object.entries(states).find((entry) => entry[0] === name)]. *)
Definition find_entry (name : string) : option (string * Z) :=
  find (fun entry => String.eqb (fst entry) name) states.

(** [states[name]]: reading a property that is not there gives
    [undefined]. *)
Definition states_get (name : string) : value :=
  match find_entry name with
  | Some entry => VNumber (snd entry)
  | None => VUndefined
  end.

(** [states[n]] for a number [n]: the key is the number's decimal string. *)
Definition states_index (n : Z) : value :=
  states_get (ToPropertyKey n).

End Globals.
Import Globals.

(** ** The hosting runtime

    What [Exercise] consumes from H5P: the content descriptor handed to
    [H5P.newRunnable], the runnable instance it gives back, and the event
    dispatcher ([on] / [trigger]) both the instance and the main instance
    inherit. *)

Module H5P.

Record Source : Type := { mime : string }.

Record Visuals : Type := { fit : value }.

(** [params.contentType.params]: only the fields the stage touches. *)
Record ContentParams : Type := {
  visuals : option Visuals;
  sources : option (list Source);
  playerMode : option string;
  fitToWrapper : value
}.

(** [params.contentType]. *)
Record ContentType : Type := {
  library : option string;
  cparams : option ContentParams
}.

(** The optional capability surface of a runnable instance. A query that
    is present is given by the value it answers; [None] and [false] mean
    the method is not there. *)
Record Instance : Type := {
  isTask : value;
  getMaxScore : option value;
  getScore : option value;
  getAnswerGiven : option value;
  getXAPIData : option value;
  showSolutions : bool;
  resetTask : bool;
  attach : bool;
  libraryInfo : option string;
  audio : bool
}.

(** What [this.instance] holds. *)
Inductive slot : Type :=
| SUndefined
| SNull
| SObject (i : Instance).

Definition slot_truthy (s : slot) : bool :=
  match s with SObject _ => true | _ => false end.

Definition slot_is_null (s : slot) : bool :=
  match s with SNull => true | _ => false end.

(** The host: the factory behind [H5P.newRunnable] (a falsy slot on
    failure) and whether [window.chrome] is set. *)
Record Host : Type := {
  newRunnable : option ContentType -> value -> slot;
  chrome : bool
}.

(** The two event dispatchers of a stage: the main instance
    ([Globals.get('mainInstance')]) and the embedded instance. *)
Inductive obj : Type := Main | Inst.

Definition obj_eqb (a b : obj) : bool :=
  match a, b with
  | Main, Main | Inst, Inst => true
  | _, _ => false
  end.

(** The payload of an event: nothing the stage reads, or an xAPI event
    with its [getScore()]. [EvMissing] is a call without event. *)
Inductive event : Type :=
| EvMissing
| EvPlain
| EvXAPI (score : value).

(** The closures the stage registers with [on]. *)
Inductive handler : Type :=
| BubbleUpH (eventName : string) (target : obj)
| BubbleDownH (origin : obj) (eventName : string) (targets : list obj)
| TrackXAPIH.

End H5P.
Import H5P.

(** ** The world a stage runs in *)

Module Runtime.

(** [params] of the constructor. *)
Record Params : Type := {
  contentType : option ContentType;
  previousState : value
}.

(** The fields of an [Exercise] object. [isAttached] and [isShowingSolutions] are
    only ever unset or [true] and only tested for truthiness. *)
Record StageRuntime : Type := {
  params : Params;
  state : value;
  score : value;
  instance : slot;
  isAttached : bool;
  isShowingSolutions : bool
}.

(** What the stage does to the outside, in the order it does it. *)
Inductive obs : Type :=
| OnStateChanged (v : value)
| OnScoreChanged (v : value)
| NewRunnable (ct : option ContentType) (previous : value)
| CallAttach
| CallShowSolutions
| CallResetTask
| SetAudioHeight
| SetBubblingUpwards (o : obj) (b : bool)
| Triggered (o : obj) (eventName : string)
| RequestAnimationFrame
| RequestIdleCallback.

(** [this], the listeners registered on the two dispatchers, the
    [bubblingUpwards] property of each, and the trace. *)
Record World : Type := {
  this : StageRuntime;
  listenersMain : list (string * handler);
  listenersInst : list (string * handler);
  flagMain : bool;
  flagInst : bool;
  trace : list obs
}.

(** How a call ends: it returns, it raises a [TypeError] (the world is
    the one at the throw), or the dispatch ran out of fuel. *)
Inductive outcome (A : Type) : Type :=
| Ok (a : A) (w : World)
| Throw (w : World)
| OutOfFuel.
Arguments Ok {A} a w.
Arguments Throw {A} w.
Arguments OutOfFuel {A}.

Definition M (A : Type) : Type := World -> outcome A.

Definition ret {A : Type} (a : A) : M A := fun w => Ok a w.

Definition bind {A B : Type} (m : M A) (f : A -> M B) : M B :=
  fun w =>
    match m w with
    | Ok a w' => f a w'
    | Throw w' => Throw w'
    | OutOfFuel => OutOfFuel
    end.

Definition throw {A : Type} : M A := fun w => Throw w.

Definition get : M World := fun w => Ok w w.

Definition modify (f : World -> World) : M unit := fun w => Ok tt (f w).

Definition with_this (f : StageRuntime -> StageRuntime) (w : World) : World :=
  {| this := f (this w);
     listenersMain := listenersMain w;
     listenersInst := listenersInst w;
     flagMain := flagMain w;
     flagInst := flagInst w;
     trace := trace w |}.

Definition set_params (p : Params) (e : StageRuntime) : StageRuntime :=
  {| params := p; state := state e; score := score e;
     instance := instance e; isAttached := isAttached e;
     isShowingSolutions := isShowingSolutions e |}.

Definition set_state (v : value) (e : StageRuntime) : StageRuntime :=
  {| params := params e; state := v; score := score e;
     instance := instance e; isAttached := isAttached e;
     isShowingSolutions := isShowingSolutions e |}.

Definition set_score (v : value) (e : StageRuntime) : StageRuntime :=
  {| params := params e; state := state e; score := v;
     instance := instance e; isAttached := isAttached e;
     isShowingSolutions := isShowingSolutions e |}.

Definition set_instance (s : slot) (e : StageRuntime) : StageRuntime :=
  {| params := params e; state := state e; score := score e;
     instance := s; isAttached := isAttached e;
     isShowingSolutions := isShowingSolutions e |}.

Definition set_isAttached (b : bool) (e : StageRuntime) : StageRuntime :=
  {| params := params e; state := state e; score := score e;
     instance := instance e; isAttached := b;
     isShowingSolutions := isShowingSolutions e |}.

Definition set_isShowingSolutions (b : bool) (e : StageRuntime) : StageRuntime :=
  {| params := params e; state := state e; score := score e;
     instance := instance e; isAttached := isAttached e;
     isShowingSolutions := b |}.

Definition log (e : obs) (w : World) : World :=
  {| this := this w;
     listenersMain := listenersMain w;
     listenersInst := listenersInst w;
     flagMain := flagMain w;
     flagInst := flagInst w;
     trace := trace w ++ [e] |}.

(** Modelled from the spec: [o.on(eventName, h)] of the hosting
    runtime's dispatcher appends the listener. *)
Definition add_listener (o : obj) (eventName : string) (h : handler)
    (w : World) : World :=
  {| this := this w;
     listenersMain :=
       match o with
       | Main => listenersMain w ++ [(eventName, h)]
       | Inst => listenersMain w
       end;
     listenersInst :=
       match o with
       | Main => listenersInst w
       | Inst => listenersInst w ++ [(eventName, h)]
       end;
     flagMain := flagMain w;
     flagInst := flagInst w;
     trace := trace w |}.

Definition listeners (o : obj) (w : World) : list (string * handler) :=
  match o with Main => listenersMain w | Inst => listenersInst w end.

(** [o.bubblingUpwards], and its assignment (recorded in the trace). *)
Definition bubblingUpwards (o : obj) (w : World) : bool :=
  match o with Main => flagMain w | Inst => flagInst w end.

Definition set_bubblingUpwards (o : obj) (b : bool) (w : World) : World :=
  {| this := this w;
     listenersMain := listenersMain w;
     listenersInst := listenersInst w;
     flagMain := match o with Main => b | Inst => flagMain w end;
     flagInst := match o with Main => flagInst w | Inst => b end;
     trace := trace w ++ [SetBubblingUpwards o b] |}.

Definition emit (e : obs) : M unit := modify (log e).

Definition update (f : StageRuntime -> StageRuntime) : M unit :=
  modify (with_this f).

(** [xs.forEach(f)]. *)
Fixpoint forEach {A : Type} (xs : list A) (f : A -> M unit) : M unit :=
  match xs with
  | [] => ret tt
  | x :: rest => bind (f x) (fun _ => forEach rest f)
  end.

(** The callbacks and the factory requests in a trace. *)
Definition is_callback (e : obs) : bool :=
  match e with
  | OnStateChanged _ | OnScoreChanged _ => true
  | _ => false
  end.

Definition callbacks (t : list obs) : list obs := filter is_callback t.

Definition is_instantiation (e : obs) : bool :=
  match e with NewRunnable _ _ => true | _ => false end.

Definition instantiations (t : list obs) : nat :=
  List.length (filter is_instantiation t).

(** How often [eventName] was triggered on [o]. *)
Definition is_triggered (o : obj) (eventName : string) (e : obs) : bool :=
  match e with
  | Triggered o' n => obj_eqb o o' && String.eqb eventName n
  | _ => false
  end.

Definition deliveries (o : obj) (eventName : string) (t : list obs) : nat :=
  List.length (filter (is_triggered o eventName) t).

End Runtime.
Import Runtime.

Declare Scope js_scope.
Notation "x <- m ;; k" := (bind m (fun x => k))
  (at level 61, m at next level, right associativity) : js_scope.
Notation "m ;; k" := (bind m (fun _ => k))
  (at level 61, right associativity) : js_scope.
Open Scope js_scope.

(** ** The class [Exercise] *)

Module Exercise.

(** [isInstanceTask(instance = {})]: the value it returns is the flag
    itself when the flag is truthy. *)
Definition isInstanceTask (instance : slot) : value :=
  match instance with
  | SUndefined => VBool false
  | SNull => VBool false
  | SObject i =>
      if truthy (isTask i) then isTask i
      else
        match H5P.getMaxScore i with
        | Some maxScore =>
            if gt maxScore (VNumber 0) then VBool true else VBool false
        | None => VBool false
        end
  end.

(** [setState(state, params = {})], with [force] the truthiness of
    [params.force]. *)
Definition setState (request : arg) (force : bool) : M unit :=
  resolved <-
    match request with
    | Name name =>
        match find_entry name with
        | Some entry => ret (VNumber (snd entry))
        | None => throw
        end
    | Val v => ret v
    end ;;
  match resolved with
  | VNumber code =>
      w <- get ;;
      let newState :=
        if force then states_index code
        else if strict_eq resolved (states_get "unstarted") then
          states_get "unstarted"
        else if strict_eq resolved (states_get "opened") then
          if truthy (isInstanceTask (instance (this w)))
          then states_get "opened"
          else states_get "cleared"
        else if strict_eq resolved (states_get "completed") then
          states_get "completed"
        else if strict_eq resolved (states_get "cleared") then
          states_get "cleared"
        else VUndefined in
      if negb (truthy (state (this w)))
         || negb (strict_eq (state (this w)) newState)
      then
        update (set_state newState) ;;
        emit (OnStateChanged newState)
      else ret tt
  | _ => ret tt
  end.

(** [trackXAPI(event)]. *)
Definition trackXAPI (ev : event) : M unit :=
  match ev with
  | EvMissing => ret tt
  | EvPlain => throw
  | EvXAPI eventScore =>
      if strict_eq eventScore VNull then ret tt
      else
        update (set_score eventScore) ;;
        w <- get ;;
        match instance (this w) with
        | SObject i =>
            match H5P.getMaxScore i with
            | Some maxScore =>
                (if lt (score (this w)) maxScore
                 then setState (Val (states_get "completed")) false
                 else setState (Val (states_get "cleared")) false) ;;
                w' <- get ;;
                emit (OnScoreChanged (score (this w')))
            | None => throw
            end
        | _ => throw
        end
  end.

(** [bubbleUp(origin, eventName, target)]. *)
Definition bubbleUp (origin : obj) (eventName : string) (target : obj)
    : M unit :=
  modify (add_listener origin eventName (BubbleUpH eventName target)).

(** [bubbleDown(origin, eventName, targets)]. *)
Definition bubbleDown (origin : obj) (eventName : string)
    (targets : list obj) : M unit :=
  modify (add_listener origin eventName
            (BubbleDownH origin eventName targets)).

(** [library.split(' ')[0]]. *)
Fixpoint first_word (s : string) : string :=
  match s with
  | EmptyString => EmptyString
  | String c rest =>
      if Ascii.eqb c " "%char then EmptyString
      else String c (first_word rest)
  end.

(** [this.params.contentType?.library?.split?.(' ')[0]]. *)
Definition machineName (p : Params) : option string :=
  match contentType p with
  | Some ct =>
      match library ct with
      | Some lib => Some (first_word lib)
      | None => None
      end
  | None => None
  end.

Definition name_is (n : option string) (s : string) : bool :=
  match n with Some x => String.eqb x s | None => false end.

(** [sources.length && (sources[0].mime === ... || ...)]. *)
Definition streamable (srcs : list Source) : value :=
  match srcs with
  | [] => VNumber 0
  | first :: _ =>
      VBool (String.eqb (mime first) "video/mp4"
             || String.eqb (mime first) "video/webm"
             || String.eqb (mime first) "video/ogg")
  end.

Definition with_cparams (p : Params) (ct : ContentType)
    (cp : ContentParams) : Params :=
  {| contentType := Some {| library := library ct; cparams := Some cp |};
     previousState := previousState p |}.

(** The assignment to [contentType.params.visuals.fit]. *)
Definition fitVideo : M unit :=
  w <- get ;;
  let p := params (this w) in
  match contentType p with
  | Some ct =>
      match cparams ct with
      | Some cp =>
          match visuals cp, sources cp with
          | Some _, Some srcs =>
              update (set_params (with_cparams p ct
                {| visuals := Some {| fit := streamable srcs |};
                   sources := sources cp;
                   playerMode := playerMode cp;
                   fitToWrapper := fitToWrapper cp |}))
          | _, _ => throw
          end
      | None => throw
      end
  | None => throw
  end.

(** The assignment to [contentType.params.fitToWrapper]. *)
Definition fitAudio : M unit :=
  w <- get ;;
  let p := params (this w) in
  match contentType p with
  | Some ct =>
      match cparams ct with
      | Some cp =>
          if name_is (playerMode cp) "full" then
            update (set_params (with_cparams p ct
              {| visuals := visuals cp;
                 sources := sources cp;
                 playerMode := playerMode cp;
                 fitToWrapper := VBool true |}))
          else ret tt
      | None => throw
      end
  | None => throw
  end.

(** [initializeInstance()]. *)
Definition initializeInstance (host : Host) : M unit :=
  w <- get ;;
  if slot_is_null (instance (this w)) || slot_truthy (instance (this w))
  then ret tt
  else
    let name := machineName (params (this w)) in
    (if name_is name "H5P.Video" then fitVideo else ret tt) ;;
    (if name_is name "H5P.Audio" then fitAudio else ret tt) ;;
    w1 <- get ;;
    (if negb (slot_truthy (instance (this w1))) then
       let ct := contentType (params (this w1)) in
       let previous := previousState (params (this w1)) in
       emit (NewRunnable ct previous) ;;
       update (set_instance (newRunnable host ct previous))
     else ret tt) ;;
    w2 <- get ;;
    if negb (slot_truthy (instance (this w2))) then ret tt
    else
      bubbleUp Inst "resize" Main ;;
      bubbleDown Main "resize" [Inst] ;;
      if truthy (isInstanceTask (instance (this w2)))
      then modify (add_listener Inst "xAPI" TrackXAPIH)
      else ret tt.

(** [getXAPIData()]. *)
Definition getXAPIData : M value :=
  w <- get ;;
  match instance (this w) with
  | SObject i =>
      match H5P.getXAPIData i with
      | Some data => ret data
      | None => ret VUndefined
      end
  | _ => throw
  end.

(** [showSolutions()]. *)
Definition showSolutions : M unit :=
  w <- get ;;
  match instance (this w) with
  | SObject i =>
      if H5P.showSolutions i then emit CallShowSolutions else ret tt
  | _ => ret tt
  end ;;
  update (set_isShowingSolutions true).

(** [this.instance?.m?.()] for a query [m]. *)
Definition query (m : Instance -> option value) (s : slot) : value :=
  match s with
  | SObject i =>
      match m i with
      | Some v => v
      | None => VUndefined
      end
  | _ => VUndefined
  end.

(** [getAnswerGiven()]. *)
Definition getAnswerGiven : M value :=
  w <- get ;;
  ret (nullish (query H5P.getAnswerGiven (instance (this w)))
         (VBool false)).

(** [getScore()]. *)
Definition getScore : M value :=
  w <- get ;;
  let score := query H5P.getScore (instance (this w)) in
  ret (if is_number score then score else VNumber 0).

(** [getMaxScore()]. *)
Definition getMaxScore : M value :=
  w <- get ;;
  let maxScore := query H5P.getMaxScore (instance (this w)) in
  ret (if is_number maxScore then maxScore else VNumber 0).

(** [attachInstance()]. *)
Definition attachInstance (host : Host) : M unit :=
  w <- get ;;
  if isAttached (this w) then ret tt
  else
    match instance (this w) with
    | SObject i =>
        (if H5P.attach i then emit CallAttach else throw) ;;
        match libraryInfo i with
        | Some name =>
            if String.eqb name "H5P.Audio" then
              if chrome host then
                if audio i then emit SetAudioHeight else throw
              else ret tt
            else ret tt
        | None => throw
        end ;;
        update (set_isAttached true)
    | _ => throw
    end.

(** [handleViewed()]; the resize is only scheduled. *)
Definition handleViewed (host : Host) : M unit :=
  attachInstance host ;;
  w <- get ;;
  (if isShowingSolutions (this w) then showSolutions else ret tt) ;;
  setState (Name "opened") false ;;
  emit RequestAnimationFrame.

(** [reset()]; the observer is only scheduled. *)
Definition reset : M unit :=
  update (set_score (VNumber 0)) ;;
  setState (Val (states_get "unstarted")) false ;;
  w <- get ;;
  (if isAttached (this w) then
     match instance (this w) with
     | SObject i =>
         if H5P.resetTask i then emit CallResetTask else ret tt
     | _ => ret tt
     end
   else ret tt) ;;
  emit RequestIdleCallback ;;
  update (set_isShowingSolutions false).

(** The object as the constructor finds it. *)
Definition fresh (p : Params) : World :=
  {| this := {| params := p; state := VUndefined; score := VUndefined;
                instance := SUndefined; isAttached := false;
                isShowingSolutions := false |};
     listenersMain := [];
     listenersInst := [];
     flagMain := false;
     flagInst := false;
     trace := [] |}.

(** [new Exercise(params, callbacks)]. *)
Definition constructor (host : Host) (p : Params) : outcome unit :=
  (setState (Val (states_get "unstarted")) false ;;
   initializeInstance host) (fresh p).

(** The body of a registered closure; [trigger] is the dispatcher it
    calls back into. *)
Definition run_handler (trigger : obj -> string -> event -> M unit)
    (h : handler) (ev : event) : M unit :=
  match h with
  | BubbleUpH eventName target =>
      modify (set_bubblingUpwards target true) ;;
      trigger target eventName ev ;;
      modify (set_bubblingUpwards target false)
  | BubbleDownH origin eventName targets =>
      w <- get ;;
      if bubblingUpwards origin w then ret tt
      else
        forEach targets (fun target =>
          w' <- get ;;
          if isAttached (this w') then trigger target eventName ev
          else ret tt)
  | TrackXAPIH => trackXAPI ev
  end.

(** The listeners registered under [eventName], in registration order. *)
Definition handlers_for (eventName : string)
    (ls : list (string * handler)) : list handler :=
  map snd (filter (fun l => String.eqb (fst l) eventName) ls).

(** Modelled from the spec: the event dispatcher of the hosting runtime
    ([on] and [trigger] of the instances), which is not part of the
    sources. [o.trigger(eventName, ev)] runs every listener registered
    under [eventName], in registration order, each one to completion
    before the next. The dispatch re-enters itself through the relays,
    hence the fuel. *)
Fixpoint trigger (fuel : nat) (o : obj) (eventName : string) (ev : event)
    : M unit :=
  match fuel with
  | O => fun _ => OutOfFuel
  | S fuel' =>
      emit (Triggered o eventName) ;;
      w <- get ;;
      forEach (handlers_for eventName (listeners o w))
        (fun h => run_handler (trigger fuel') h ev)
  end.

End Exercise.

(** ** Vocabulary of the statements *)

Open Scope list_scope.

(** An instance is a task when it carries a truthy [isTask] flag or has a
    max-score query answering more than zero. *)
Definition declared_task (s : slot) : bool :=
  match s with
  | SObject i =>
      truthy (isTask i)
      || match H5P.getMaxScore i with
         | Some maxScore => gt maxScore (VNumber 0)
         | None => false
         end
  | _ => false
  end.

(** The instance is absent: never created, or the factory failed. *)
Definition absent (s : slot) : Prop := s = SUndefined \/ s = SNull.

(** The relays of [eventName] are the ones [initializeInstance] installs:
    one upward relay on the instance, one downward relay on the main
    instance. *)
Definition wired (eventName : string) (w : World) : Prop :=
  Exercise.handlers_for eventName (listenersInst w)
    = [BubbleUpH eventName Main] /\
  Exercise.handlers_for eventName (listenersMain w)
    = [BubbleDownH Main eventName [Inst]].

(** What an event raised by the instance adds to the trace. *)
Definition relay_up (eventName : string) : list obs :=
  [ Triggered Inst eventName;
    SetBubblingUpwards Main true;
    Triggered Main eventName;
    SetBubblingUpwards Main false ].

(** The world after a dispatch that added [t] to the trace and left the
    flag of the main instance cleared. *)
Definition after (t : list obs) (w : World) : World :=
  {| this := this w;
     listenersMain := listenersMain w;
     listenersInst := listenersInst w;
     flagMain := false;
     flagInst := flagInst w;
     trace := trace w ++ t |}.

(** The code a numeric request settles on, and whether storing it
    notifies [onStateChanged]. *)
Definition resolve (w : World) (code : Z) (force : bool) : value :=
  if force then states_index code
  else if code =? 0 then VNumber 0
  else if code =? 4 then
    VNumber (if declared_task (instance (this w)) then 4 else 6)
  else if code =? 5 then VNumber 5
  else if code =? 6 then VNumber 6
  else VUndefined.

Definition notifies (w : World) (newState : value) : bool :=
  negb (truthy (state (this w)))
  || negb (strict_eq (state (this w)) newState).

(** The world once [newState] is stored and notified. *)
Definition stored (newState : value) (w : World) : World :=
  log (OnStateChanged newState) (with_this (set_state newState) w).

(** The code a request for ['opened'] resolves to. *)
Definition opened_code (s : slot) : value :=
  VNumber (if declared_task s then 4 else 6).

(** A computation that ends (returning or throwing) without touching the
    stored state and without invoking a callback: it only appends to the
    trace, and nothing it appends is a callback. *)
Definition quiet {A : Type} (m : M A) : Prop :=
  forall w,
    match m w with
    | Ok _ w' | Throw w' =>
        state (this w') = state (this w) /\
        exists t, trace w' = trace w ++ t /\ callbacks t = []
    | OutOfFuel => False
    end.

(** A property key that starts with a digit or a minus sign. *)
Definition starts_numeric (s : string) : bool :=
  match s with
  | EmptyString => false
  | String c _ => Nat.leb (nat_of_ascii c) 57
  end.

(** Concrete stages used to instantiate the statements. *)
Module Examples.

(** A scored content type: five points to win. *)
Definition quiz : Instance :=
  {| isTask := VUndefined;
     getMaxScore := Some (VNumber 5);
     getScore := Some (VNumber 0);
     getAnswerGiven := Some (VBool false);
     getXAPIData := Some VNull;
     showSolutions := true;
     resetTask := true;
     attach := true;
     libraryInfo := Some "H5P.MultiChoice";
     audio := false |}.

(** A content type without any scoring. *)
Definition text : Instance :=
  {| isTask := VUndefined;
     getMaxScore := None;
     getScore := None;
     getAnswerGiven := None;
     getXAPIData := None;
     showSolutions := false;
     resetTask := false;
     attach := true;
     libraryInfo := Some "H5P.AdvancedText";
     audio := false |}.

Definition descriptor (lib : string) : Params :=
  {| contentType := Some {| library := Some lib; cparams := None |};
     previousState := VUndefined |}.

(** A host whose factory always answers [s]. *)
Definition host_giving (s : slot) : Host :=
  {| newRunnable := fun _ _ => s; chrome := false |}.

(** The world a constructor call leaves behind ([fresh] if it threw). *)
Definition built (host : Host) (p : Params) : World :=
  match Exercise.constructor host p with
  | Ok _ w => w
  | Throw w => w
  | OutOfFuel => Exercise.fresh p
  end.

Definition quiz_stage : World :=
  built (host_giving (SObject quiz)) (descriptor "H5P.MultiChoice 1.16").

Definition text_stage : World :=
  built (host_giving (SObject text)) (descriptor "H5P.AdvancedText 1.1").

(** A stage whose content type the host does not know. *)
Definition failed_stage : World :=
  built (host_giving SUndefined) (descriptor "H5P.Unknown 1.0").

(** The world after the stage came into view ([handleViewed]). *)
Definition viewed (host : Host) (w : World) : World :=
  match Exercise.handleViewed host w with
  | Ok _ w' => w'
  | Throw w' => w'
  | OutOfFuel => w
  end.

Definition opened_quiz_stage : World :=
  viewed (host_giving (SObject quiz)) quiz_stage.

(** The stored state overwritten, as the map controller may do. *)
Definition in_state (code : Z) (w : World) : World :=
  with_this (set_state (VNumber code)) w.

End Examples.

(** ** The class [GameMap]: what its constructor decides *)

Module GameMap.

(** An entry of [params.gamemapSteps.gamemap.elements]. *)
Record Element : Type := { element_contentType : option ContentType }.

(** [element.contentType?.library] as a condition: a string that is not
    empty. *)
Definition has_library (element : Element) : bool :=
  match element_contentType element with
  | Some ct =>
      match library ct with
      | Some lib => negb (String.eqb lib "")
      | None => false
      end
  | None => false
  end.

(** [elements.filter((element) => element.contentType?.library)]. *)
Definition sanitize (elements : list Element) : list Element :=
  filter has_library elements.

(** What the constructor leaves in [this]: the sanitized stages, the key
    of the message it shows if any, and whether [this.content] was built
    (with its ['resize'] listener). *)
Record Map : Type := {
  elements : list Element;
  message : option string;
  content : bool
}.

(** The part of the constructor after the parameters are merged;
    [backgroundImage] is the truthiness of
    [gamemapSteps.backgroundImageSettings?.backgroundImage]. *)
Definition constructor (backgroundImage : bool) (raw : list Element) : Map :=
  let stages := sanitize raw in
  if negb backgroundImage then
    {| elements := stages; message := Some "l10n.noBackground";
       content := false |}
  else if (List.length stages =? 0)%nat then
    {| elements := stages; message := Some "l10n.noStages";
       content := false |}
  else
    {| elements := stages; message := None; content := true |}.

(** [getCurrentState()]: [contentState] is what [this.content] answers;
    [None] is the [TypeError] of reading it off a missing content. *)
Definition getCurrentState (map : Map) (contentState : value)
    : option value :=
  if content map then Some contentState else None.

End GameMap.

(** ** Vocabulary for sequences of calls *)

(** The calls a map controller, the embedded instance or the main instance
    can make on a stage. *)
Inductive call : Type :=
| DoSetState (request : arg) (force : bool)
| DoTrackXAPI (ev : event)
| DoInitializeInstance
| DoShowSolutions
| DoAttachInstance
| DoHandleViewed
| DoReset
| DoGetXAPIData
| DoGetScore
| DoGetMaxScore
| DoGetAnswerGiven
| DoTrigger (o : obj) (eventName : string) (ev : event).

Definition perform (host : Host) (fuel : nat) (c : call) : M unit :=
  match c with
  | DoSetState request force => Exercise.setState request force
  | DoTrackXAPI ev => Exercise.trackXAPI ev
  | DoInitializeInstance => Exercise.initializeInstance host
  | DoShowSolutions => Exercise.showSolutions
  | DoAttachInstance => Exercise.attachInstance host
  | DoHandleViewed => Exercise.handleViewed host
  | DoReset => Exercise.reset
  | DoGetXAPIData => Exercise.getXAPIData ;; ret tt
  | DoGetScore => Exercise.getScore ;; ret tt
  | DoGetMaxScore => Exercise.getMaxScore ;; ret tt
  | DoGetAnswerGiven => Exercise.getAnswerGiven ;; ret tt
  | DoTrigger o eventName ev => Exercise.trigger fuel o eventName ev
  end.

(** Once an instance exists it stays the same one, with the same
    listeners and no further factory request. *)
Definition fixed (w w' : World) : Prop :=
  slot_truthy (instance (this w)) = true ->
  instance (this w') = instance (this w) /\
  listenersMain w' = listenersMain w /\
  listenersInst w' = listenersInst w /\
  instantiations (trace w') = instantiations (trace w).

(** An attached stage stays attached. *)
Definition stays_attached (w w' : World) : Prop :=
  isAttached (this w) = true -> isAttached (this w') = true.

(** No [bubblingUpwards] flag is set that was not set before. *)
Definition no_new_flag (w w' : World) : Prop :=
  (flagMain w = false -> flagMain w' = false) /\
  (flagInst w = false -> flagInst w' = false).

(** Nothing is required. *)
Definition any_world (w w' : World) : Prop := True.

(** A computation whose end is related to its start: by [R] when it
    returns, by [T] when it throws. *)
Definition respects (R T : World -> World -> Prop) {A : Type} (m : M A)
    : Prop :=
  forall w,
    match m w with
    | Ok _ w' => R w w'
    | Throw w' => T w w'
    | OutOfFuel => True
    end.

(** No blank in a name. *)
Fixpoint no_space (s : string) : bool :=
  match s with
  | EmptyString => true
  | String c rest => negb (Ascii.eqb c " "%char) && no_space rest
  end.

(** More concrete stages. *)
Module Stages.

Definition video_params (srcs : list Source) : Params :=
  {| contentType :=
       Some {| library := Some "H5P.Video 1.6";
               cparams :=
                 Some {| visuals := Some {| fit := VUndefined |};
                         sources := Some srcs;
                         playerMode := None;
                         fitToWrapper := VUndefined |} |};
     previousState := VUndefined |}.

Definition audio_params (mode : string) : Params :=
  {| contentType :=
       Some {| library := Some "H5P.Audio 1.5";
               cparams :=
                 Some {| visuals := None;
                         sources := None;
                         playerMode := Some mode;
                         fitToWrapper := VUndefined |} |};
     previousState := VUndefined |}.

(** A content type that declares itself a task and has no score. *)
Definition survey : Instance :=
  {| isTask := VBool true;
     getMaxScore := None;
     getScore := None;
     getAnswerGiven := Some (VBool true);
     getXAPIData := None;
     showSolutions := false;
     resetTask := true;
     attach := true;
     libraryInfo := Some "H5P.Survey";
     audio := false |}.

(** An audio player whose element is not built yet. *)
Definition player : Instance :=
  {| isTask := VUndefined;
     getMaxScore := None;
     getScore := None;
     getAnswerGiven := None;
     getXAPIData := None;
     showSolutions := false;
     resetTask := false;
     attach := true;
     libraryInfo := Some "H5P.Audio";
     audio := false |}.

Definition chrome_giving (s : slot) : Host :=
  {| newRunnable := fun _ _ => s; chrome := true |}.

Definition survey_stage : World :=
  Examples.built (Examples.host_giving (SObject survey))
    (Examples.descriptor "H5P.Survey 1.0").

Definition player_stage : World :=
  Examples.built (chrome_giving (SObject player))
    (Examples.descriptor "H5P.Player 1.0").

Definition mp4 : Source := {| mime := "video/mp4" |}.

Definition element (lib : option string) : GameMap.Element :=
  {| GameMap.element_contentType :=
       Some {| library := lib; cparams := None |} |}.

End Stages.

(** ** Facts about values and the state table *)

Lemma strict_eq_refl (v : value) : strict_eq v v = true.
Proof.
  destruct v as [| |b|n]; simpl; trivial.
  - now destruct b.
  - apply Z.eqb_refl.
Qed.

Lemma strict_eq_true (a b : value) : strict_eq a b = true <-> a = b.
Proof.
  split.
  - destruct a as [| |x|x], b as [| |y|y]; simpl; try discriminate; trivial.
    + intros H. apply Bool.eqb_prop in H. now subst.
    + intros H. apply Z.eqb_eq in H. now subst.
  - intros ->. apply strict_eq_refl.
Qed.

Lemma string_of_int_numeric (n : Z) : starts_numeric (ToPropertyKey n) = true.
Proof.
  unfold ToPropertyKey, NilZero.string_of_int.
  destruct (Z.to_int n) as [d|d]; simpl.
  - unfold NilZero.string_of_uint. destruct d; reflexivity.
  - reflexivity.
Qed.

Lemma states_get_numeric (k : string) :
  starts_numeric k = true -> states_get k = VUndefined.
Proof.
  destruct k as [|c k]; simpl; [discriminate|].
  intros H. unfold states_get, find_entry, states. simpl.
  destruct c as [b0 b1 b2 b3 b4 b5 b6 b7].
  destruct b0, b1, b2, b3, b4, b5, b6, b7; try discriminate H; reflexivity.
Qed.

(** No state name is a number: [states[n]] is always [undefined]. *)
Lemma states_index_undefined (n : Z) : states_index n = VUndefined.
Proof. apply states_get_numeric, string_of_int_numeric. Qed.

Lemma isInstanceTask_declared (s : slot) :
  truthy (Exercise.isInstanceTask s) = declared_task s.
Proof.
  destruct s as [| |i]; simpl; trivial.
  destruct (truthy (isTask i)) eqn:E; simpl; trivial.
  destruct (H5P.getMaxScore i) as [m|]; trivial.
  now destruct (gt m (VNumber 0)).
Qed.

(** ** [setState] *)

(** A numeric request always returns; it stores and notifies the resolved
    code exactly when the stored state is falsy or differs from it. *)
Lemma setState_number (w : World) (code : Z) (force : bool) :
  Exercise.setState (Val (VNumber code)) force w =
  if notifies w (resolve w code force)
  then Ok tt (stored (resolve w code force) w)
  else Ok tt w.
Proof.
  unfold Exercise.setState, resolve, notifies, stored.
  unfold bind, ret, get, update, emit, modify.
  simpl. rewrite isInstanceTask_declared.
  destruct force; simpl.
  - destruct (negb _ || negb _); reflexivity.
  - destruct (code =? 0) eqn:E0.
    { destruct (negb _ || negb _); reflexivity. }
    destruct (code =? 4) eqn:E4.
    { destruct (declared_task _); destruct (negb _ || negb _); reflexivity. }
    destruct (code =? 5) eqn:E5.
    { destruct (negb _ || negb _); reflexivity. }
    destruct (code =? 6) eqn:E6.
    { destruct (negb _ || negb _); reflexivity. }
    destruct (negb _ || negb _); reflexivity.
Qed.

(** A symbolic name that is in the table behaves as its code. *)
Lemma setState_name (w : World) (name : string) (code : Z) (force : bool) :
  find_entry name = Some (name, code) ->
  Exercise.setState (Name name) force w
  = Exercise.setState (Val (VNumber code)) force w.
Proof.
  intros H. unfold Exercise.setState, bind at 1. rewrite H. reflexivity.
Qed.

(** A name that is not in the table: [find] answers [undefined] and
    reading its index [1] throws. *)
Lemma setState_unknown_name (w : World) (name : string) (force : bool) :
  find_entry name = None -> Exercise.setState (Name name) force w = Throw w.
Proof.
  intros H. unfold Exercise.setState, bind. now rewrite H.
Qed.

(** A value that is neither a string nor a number is ignored. *)
Lemma setState_not_a_number (w : World) (v : value) (force : bool) :
  is_number v = false -> Exercise.setState (Val v) force w = Ok tt w.
Proof.
  destruct v; simpl; try discriminate; reflexivity.
Qed.

Lemma notifies_undefined (w : World) : notifies w VUndefined = true.
Proof.
  unfold notifies.
  destruct (state (this w)) as [| |b|n]; simpl;
    rewrite ?orb_true_r; reflexivity.
Qed.

(** A code the stage does not drive resolves to [undefined], which is then
    stored and notified whatever the stored state is. *)
Lemma setState_foreign_code (w : World) (code : Z) :
  code <> 0 -> code <> 4 -> code <> 5 -> code <> 6 ->
  Exercise.setState (Val (VNumber code)) false w = Ok tt (stored VUndefined w).
Proof.
  intros H0 H4 H5 H6. rewrite setState_number.
  assert (R : resolve w code false = VUndefined).
  { unfold resolve.
    apply Z.eqb_neq in H0, H4, H5, H6. now rewrite H0, H4, H5, H6. }
  rewrite R. now rewrite notifies_undefined.
Qed.

(** The callback of a numeric request: invoked, once and with the resolved
    code, exactly when the stored state is falsy or differs from it. *)
Lemma setState_callback (w : World) (code : Z) (force : bool) :
  exists w1,
    Exercise.setState (Val (VNumber code)) force w = Ok tt w1 /\
    state (this w1) = (if notifies w (resolve w code force)
                       then resolve w code force else state (this w)) /\
    trace w1 = trace w ++
      (if notifies w (resolve w code force)
       then [OnStateChanged (resolve w code force)] else []).
Proof.
  rewrite setState_number.
  destruct (notifies w (resolve w code force)); eexists; split;
    try reflexivity; simpl; split; trivial.
  now rewrite app_nil_r.
Qed.

(** The full account of a request for ['opened'], whatever the stored
    state: the stage ends in the code the request resolves to,
    [onStateChanged] is invoked with it unless it was stored already, and
    the same request again changes nothing. *)
Lemma setState_opened (w : World) :
  exists w1,
    Exercise.setState (Name "opened") false w = Ok tt w1 /\
    state (this w1) = opened_code (instance (this w)) /\
    trace w1
    = trace w
      ++ (if strict_eq (state (this w)) (opened_code (instance (this w)))
          then []
          else [OnStateChanged (opened_code (instance (this w)))]) /\
    Exercise.setState (Name "opened") false w1 = Ok tt w1.
Proof.
  assert (N : forall w', Exercise.setState (Name "opened") false w'
                         = Exercise.setState (Val (VNumber 4)) false w').
  { intros w'. now apply setState_name. }
  assert (R : forall w', resolve w' 4 false = opened_code (instance (this w')))
    by reflexivity.
  assert (T : truthy (opened_code (instance (this w))) = true).
  { unfold opened_code. now destruct (declared_task _). }
  rewrite N, setState_number, R. unfold notifies.
  destruct (strict_eq (state (this w)) (opened_code (instance (this w))))
    eqn:E.
  - apply strict_eq_true in E. rewrite E, T. simpl.
    exists w. repeat split; trivial.
    + now rewrite app_nil_r.
    + rewrite N, setState_number, R. unfold notifies.
      now rewrite E, T, strict_eq_refl.
  - rewrite orb_true_r.
    exists (stored (opened_code (instance (this w))) w).
    repeat split; trivial.
    rewrite N, setState_number, R. unfold notifies.
    change (state (this (stored (opened_code (instance (this w))) w)))
      with (opened_code (instance (this w))).
    change (instance (this (stored (opened_code (instance (this w))) w)))
      with (instance (this w)).
    now rewrite T, strict_eq_refl.
Qed.

(** C1: on every stage whose stored state is not yet the code the request
    resolves to (every stage as constructed, in particular),
    [setState('opened')] stores [opened] (4) when the instance is a task (a
    truthy [isTask] flag, or a max-score query answering more than zero)
    and [cleared] (6) when it is not; in both cases [onStateChanged] is
    invoked exactly once, with that code; and the same call made again
    right away changes nothing and invokes no callback. *)
Theorem setState_opened_once (w : World) :
  state (this w) <> opened_code (instance (this w)) ->
  exists w1,
    Exercise.setState (Name "opened") false w = Ok tt w1 /\
    state (this w1)
    = VNumber (if declared_task (instance (this w)) then 4 else 6) /\
    trace w1
    = trace w
      ++ [OnStateChanged
            (VNumber (if declared_task (instance (this w)) then 4 else 6))] /\
    Exercise.setState (Name "opened") false w1 = Ok tt w1.
Proof.
  intros H.
  destruct (setState_opened w) as (w1 & E & S & T & R).
  exists w1. repeat split; trivial.
  destruct (strict_eq (state (this w)) (opened_code (instance (this w))))
    eqn:D; [|exact T].
  apply strict_eq_true in D. contradiction.
Qed.

Lemma setState_opened_once_witness :
  exists w1,
    Exercise.setState (Name "opened") false Examples.quiz_stage = Ok tt w1 /\
    state (this w1)
    = VNumber (if declared_task (instance (this Examples.quiz_stage))
               then 4 else 6) /\
    trace w1
    = trace Examples.quiz_stage
      ++ [OnStateChanged
            (VNumber (if declared_task (instance (this Examples.quiz_stage))
                      then 4 else 6))] /\
    Exercise.setState (Name "opened") false w1 = Ok tt w1.
Proof.
  apply (setState_opened_once Examples.quiz_stage).
  vm_compute. discriminate.
Defined.

(** C3, at the input where the code departs from it: on a stage whose
    stored state is [unstarted] (0), a request for [unstarted] resolves to
    the code already stored, and [onStateChanged] is invoked all the same,
    because the guard [!this.state] takes the code 0 for a missing state. *)
Theorem setState_unstarted_notifies_again (w : World) :
  state (this w) = VNumber 0 ->
  exists w1,
    Exercise.setState (Val (VNumber 0)) false w = Ok tt w1 /\
    state (this w1) = state (this w) /\
    trace w1 = trace w ++ [OnStateChanged (VNumber 0)].
Proof.
  intros H. rewrite setState_number. unfold notifies. rewrite H. simpl.
  eexists. split; [reflexivity|]. split; reflexivity.
Qed.

Lemma setState_unstarted_notifies_again_witness :
  state (this Examples.quiz_stage) = VNumber 0 /\
  exists w1,
    Exercise.setState (Val (VNumber 0)) false Examples.quiz_stage
    = Ok tt w1 /\
    state (this w1) = state (this Examples.quiz_stage) /\
    trace w1 = trace Examples.quiz_stage ++ [OnStateChanged (VNumber 0)].
Proof.
  split; [reflexivity|].
  apply (setState_unstarted_notifies_again Examples.quiz_stage).
  reflexivity.
Defined.

(** C4, at the inputs where the code departs from it: a symbolic name that
    is not in the table raises a [TypeError]; a numeric code the stage does
    not drive (here [locked], 1) overwrites the stored state with
    [undefined] and invokes [onStateChanged] with it. Only a value that is
    neither a string nor a number is silently ignored. *)
Theorem setState_rejected_requests (w : World) (force : bool) :
  Exercise.setState (Name "finished") force w = Throw w /\
  Exercise.setState (Val (VNumber 1)) false w = Ok tt (stored VUndefined w) /\
  Exercise.setState (Val VUndefined) force w = Ok tt w /\
  Exercise.setState (Val VNull) force w = Ok tt w /\
  (forall b, Exercise.setState (Val (VBool b)) force w = Ok tt w).
Proof.
  split; [now apply setState_unknown_name|].
  split; [apply setState_foreign_code; discriminate|].
  repeat split.
Qed.

(** C5, where the code departs from it: with [force] set, the new state is
    read from the table under the numeric code, where no entry is, so every
    forced numeric request stores [undefined], never the requested code,
    and invokes [onStateChanged] with [undefined]. *)
Theorem setState_force_stores_undefined (w : World) (code : Z) :
  Exercise.setState (Val (VNumber code)) true w
  = Ok tt (stored VUndefined w).
Proof.
  rewrite setState_number. unfold resolve.
  rewrite states_index_undefined. now rewrite notifies_undefined.
Qed.

(** ** [trackXAPI] *)

(** The numeric case of [trackXAPI], unfolded once. *)
Lemma trackXAPI_number (w : World) (s : Z) :
  Exercise.trackXAPI (EvXAPI (VNumber s)) w =
  let w0 := with_this (set_score (VNumber s)) w in
  match instance (this w) with
  | SObject i =>
      match H5P.getMaxScore i with
      | Some maxScore =>
          match Exercise.setState
                  (Val (VNumber (if lt (VNumber s) maxScore then 5 else 6)))
                  false w0 with
          | Ok _ w1 => Ok tt (log (OnScoreChanged (score (this w1))) w1)
          | Throw w1 => Throw w1
          | OutOfFuel => OutOfFuel
          end
      | None => Throw w0
      end
  | _ => Throw w0
  end.
Proof.
  unfold Exercise.trackXAPI. simpl.
  unfold bind at 1, update at 1, modify at 1.
  unfold bind at 1, get at 1.
  change (instance (this (with_this (set_score (VNumber s)) w)))
    with (instance (this w)).
  destruct (instance (this w)) as [| |i]; try reflexivity.
  destruct (H5P.getMaxScore i) as [maxScore|]; try reflexivity.
  change (score (this (with_this (set_score (VNumber s)) w)))
    with (VNumber s).
  unfold bind, get, emit, modify.
  destruct (lt (VNumber s) maxScore); reflexivity.
Qed.

(** Where the instance answers a max score [m]: a missing event or an
    event with a null score changes nothing and invokes no callback; an
    event with score [s] records [s], leaves the state at [completed] (5)
    when [s < m] and at [cleared] (6) otherwise, notifying that state when
    it is new, and then invokes [onScoreChanged] with [s] in every case. *)
Lemma trackXAPI_score (w : World) (i : Instance) (s m : Z) :
  instance (this w) = SObject i ->
  H5P.getMaxScore i = Some (VNumber m) ->
  Exercise.trackXAPI EvMissing w = Ok tt w /\
  Exercise.trackXAPI (EvXAPI VNull) w = Ok tt w /\
  exists w1,
    Exercise.trackXAPI (EvXAPI (VNumber s)) w = Ok tt w1 /\
    score (this w1) = VNumber s /\
    state (this w1) = VNumber (if s <? m then 5 else 6) /\
    trace w1
    = trace w
      ++ (if strict_eq (state (this w)) (VNumber (if s <? m then 5 else 6))
          then []
          else [OnStateChanged (VNumber (if s <? m then 5 else 6))])
      ++ [OnScoreChanged (VNumber s)].
Proof.
  intros Hi Hm. split; [reflexivity|]. split; [reflexivity|].
  rewrite trackXAPI_number, Hi, Hm. cbv zeta.
  change (lt (VNumber s) (VNumber m)) with (s <? m).
  rewrite setState_number.
  set (code := if s <? m then 5 else 6).
  assert (R : resolve (with_this (set_score (VNumber s)) w) code false
              = VNumber code).
  { unfold code. now destruct (s <? m). }
  assert (T : truthy (VNumber code) = true).
  { unfold code. now destruct (s <? m). }
  rewrite R. unfold notifies.
  change (state (this (with_this (set_score (VNumber s)) w)))
    with (state (this w)).
  destruct (strict_eq (state (this w)) (VNumber code)) eqn:E.
  - apply strict_eq_true in E. rewrite E, T. simpl.
    eexists. split; [reflexivity|]. simpl. repeat split. now symmetry.
  - rewrite orb_true_r.
    eexists. split; [reflexivity|]. simpl. repeat split.
    now rewrite <- app_assoc.
Qed.

Lemma trackXAPI_score_witness :
  Exercise.trackXAPI EvMissing Examples.quiz_stage
  = Ok tt Examples.quiz_stage /\
  Exercise.trackXAPI (EvXAPI VNull) Examples.quiz_stage
  = Ok tt Examples.quiz_stage /\
  exists w1,
    Exercise.trackXAPI (EvXAPI (VNumber 3)) Examples.quiz_stage = Ok tt w1 /\
    score (this w1) = VNumber 3 /\
    state (this w1) = VNumber (if 3 <? 5 then 5 else 6) /\
    trace w1
    = trace Examples.quiz_stage
      ++ (if strict_eq (state (this Examples.quiz_stage))
                (VNumber (if 3 <? 5 then 5 else 6))
          then []
          else [OnStateChanged (VNumber (if 3 <? 5 then 5 else 6))])
      ++ [OnScoreChanged (VNumber 3)].
Proof.
  apply (trackXAPI_score Examples.quiz_stage Examples.quiz 3 5);
    reflexivity.
Defined.

(** ** Quiet computations *)

Create HintDb quiet.

Lemma callbacks_app (t u : list obs) :
  callbacks (t ++ u) = callbacks t ++ callbacks u.
Proof. apply filter_app. Qed.

Lemma quiet_ret {A : Type} (a : A) : quiet (ret a).
Proof. intros w. simpl. split; trivial. exists []. now rewrite app_nil_r. Qed.

Lemma quiet_throw {A : Type} : quiet (@throw A).
Proof. intros w. simpl. split; trivial. exists []. now rewrite app_nil_r. Qed.

Lemma quiet_get : quiet get.
Proof. intros w. simpl. split; trivial. exists []. now rewrite app_nil_r. Qed.

Lemma quiet_bind {A B : Type} (m : M A) (f : A -> M B) :
  quiet m -> (forall a, quiet (f a)) -> quiet (bind m f).
Proof.
  intros Hm Hf w. unfold bind.
  specialize (Hm w). destruct (m w) as [a w1|w1|]; trivial.
  specialize (Hf a w1).
  destruct Hm as [S1 (t1 & T1 & C1)].
  destruct (f a w1) as [b w2|w2|]; trivial;
    destruct Hf as [S2 (t2 & T2 & C2)];
    (split; [congruence|]); exists (t1 ++ t2);
    (split; [rewrite T2, T1; now rewrite app_assoc|]);
    rewrite callbacks_app, C1, C2; reflexivity.
Qed.

Lemma quiet_modify (f : World -> World) :
  (forall w, state (this (f w)) = state (this w)) ->
  (forall w, trace (f w) = trace w) ->
  quiet (modify f).
Proof.
  intros Hs Ht w. simpl. split; [apply Hs|].
  exists []. now rewrite Ht, app_nil_r.
Qed.

Lemma quiet_set_params (p : Params) : quiet (update (set_params p)).
Proof. apply quiet_modify; reflexivity. Qed.

Lemma quiet_set_instance (s : slot) : quiet (update (set_instance s)).
Proof. apply quiet_modify; reflexivity. Qed.

Lemma quiet_add_listener (o : obj) (n : string) (h : handler) :
  quiet (modify (add_listener o n h)).
Proof. apply quiet_modify; reflexivity. Qed.

Lemma quiet_emit (e : obs) : is_callback e = false -> quiet (emit e).
Proof.
  intros H w. simpl. split; trivial.
  exists [e]. split; trivial. unfold callbacks. simpl. now rewrite H.
Qed.

#[local] Hint Resolve quiet_ret quiet_throw quiet_get quiet_set_params
  quiet_set_instance quiet_add_listener : quiet.

Ltac quiet_step :=
  match goal with
  | |- quiet (bind _ _) => apply quiet_bind; [|intros ?]
  | |- quiet (if ?c then _ else _) => destruct c
  | |- quiet (match ?x with _ => _ end) => destruct x
  | |- quiet (emit _) => apply quiet_emit; reflexivity
  | |- quiet _ => solve [auto with quiet]
  end.

Lemma quiet_fitVideo : quiet Exercise.fitVideo.
Proof. unfold Exercise.fitVideo. repeat quiet_step. Qed.

Lemma quiet_fitAudio : quiet Exercise.fitAudio.
Proof. unfold Exercise.fitAudio. repeat quiet_step. Qed.

(** Instantiating and wiring never touches the stored state and never
    invokes a callback, whether it returns or throws. *)
Lemma quiet_initializeInstance (host : Host) :
  quiet (Exercise.initializeInstance host).
Proof.
  pose proof quiet_fitVideo. pose proof quiet_fitAudio.
  unfold Exercise.initializeInstance, Exercise.bubbleUp, Exercise.bubbleDown.
  repeat (quiet_step; trivial).
Qed.

(** ** The constructor *)

(** C10: constructing a stage invokes [onStateChanged] exactly once, with
    [unstarted] (0), before anything else the constructor does and through
    [setState]; whether the rest of the constructor returns or throws, that
    is the only callback and the stored state is 0. *)
Theorem constructor_notifies_unstarted (host : Host) (p : Params) :
  exists w rest,
    (Exercise.constructor host p = Ok tt w
     \/ Exercise.constructor host p = Throw w) /\
    state (this w) = VNumber 0 /\
    trace w = OnStateChanged (VNumber 0) :: rest /\
    callbacks rest = [].
Proof.
  assert (E : Exercise.constructor host p
              = Exercise.initializeInstance host
                  (stored (VNumber 0) (Exercise.fresh p))) by reflexivity.
  rewrite E. clear E.
  pose proof (quiet_initializeInstance host
                (stored (VNumber 0) (Exercise.fresh p))) as Q.
  destruct (Exercise.initializeInstance host
              (stored (VNumber 0) (Exercise.fresh p))) as [[] w|w|];
    [ | | contradiction ];
    destruct Q as [Qs (t & Qt & Qc)]; exists w, t;
    (split; [auto|]); (split; [exact Qs|]); (split; [exact Qt|exact Qc]).
Qed.

(** ** [initializeInstance] *)

(** Once the slot holds an instance or [null], a call does nothing. *)
Lemma initializeInstance_settled (host : Host) (w : World) :
  instance (this w) <> SUndefined ->
  Exercise.initializeInstance host w = Ok tt w.
Proof.
  intros H. unfold Exercise.initializeInstance, bind, get.
  destruct (instance (this w)); [contradiction| |]; reflexivity.
Qed.

(** A call on an empty slot, for a content type that needs no adaptation
    and that the factory fails to create: the factory is asked once, the
    slot stays empty and nothing is wired. *)
Lemma initializeInstance_failure (host : Host) (w : World) :
  instance (this w) = SUndefined ->
  Exercise.name_is (Exercise.machineName (params (this w))) "H5P.Video"
  = false ->
  Exercise.name_is (Exercise.machineName (params (this w))) "H5P.Audio"
  = false ->
  newRunnable host (contentType (params (this w)))
    (previousState (params (this w))) = SUndefined ->
  Exercise.initializeInstance host w
  = Ok tt (with_this (set_instance SUndefined)
             (log (NewRunnable (contentType (params (this w)))
                     (previousState (params (this w)))) w)).
Proof.
  intros Hi Hv Ha Hf.
  unfold Exercise.initializeInstance, bind, get, ret, emit, update, modify.
  rewrite Hi, Hv, Ha. simpl. rewrite Hi. simpl. rewrite Hf. reflexivity.
Qed.

(** C7, at the input where the code departs from it: when the factory
    fails with [undefined] (no adaptation involved), the slot is left
    [undefined], which the guard of [initializeInstance] does not
    recognise, so a second call asks the factory again: two instantiation
    requests instead of one. *)
Theorem initializeInstance_retries_after_failure (host : Host) (p : Params) :
  Exercise.name_is (Exercise.machineName p) "H5P.Video" = false ->
  Exercise.name_is (Exercise.machineName p) "H5P.Audio" = false ->
  newRunnable host (contentType p) (previousState p) = SUndefined ->
  exists w1 w2,
    Exercise.constructor host p = Ok tt w1 /\
    instantiations (trace w1) = 1%nat /\
    Exercise.initializeInstance host w1 = Ok tt w2 /\
    instantiations (trace w2) = 2%nat /\
    listeners Main w2 = [] /\ listeners Inst w2 = [].
Proof.
  intros Hv Ha Hf.
  assert (E : Exercise.constructor host p
              = Exercise.initializeInstance host
                  (stored (VNumber 0) (Exercise.fresh p))) by reflexivity.
  rewrite E. clear E.
  rewrite initializeInstance_failure by (reflexivity || assumption).
  eexists. eexists. split; [reflexivity|]. split; [reflexivity|].
  rewrite initializeInstance_failure by (reflexivity || assumption).
  split; [reflexivity|]. repeat split.
Qed.

Lemma initializeInstance_retries_after_failure_witness :
  exists w1 w2,
    Exercise.constructor (Examples.host_giving SUndefined)
      (Examples.descriptor "H5P.Unknown 1.0") = Ok tt w1 /\
    instantiations (trace w1) = 1%nat /\
    Exercise.initializeInstance (Examples.host_giving SUndefined) w1
    = Ok tt w2 /\
    instantiations (trace w2) = 2%nat /\
    listeners Main w2 = [] /\ listeners Inst w2 = [].
Proof.
  apply (initializeInstance_retries_after_failure
           (Examples.host_giving SUndefined)
           (Examples.descriptor "H5P.Unknown 1.0"));
    reflexivity.
Defined.

(** ** Queries and commands on a stage without instance *)

Lemma notifies_unstarted (w : World) : notifies w (VNumber 0) = true.
Proof.
  unfold notifies.
  destruct (state (this w)) as [| |b|n]; simpl; trivial.
  - now rewrite orb_true_r.
  - destruct (n =? 0); reflexivity.
Qed.

(** C6, with the two operations where the code departs from it: on a
    stage whose instance is absent, [getScore] and [getMaxScore] answer 0,
    [getAnswerGiven] answers [false], [showSolutions] only sets its flag
    and [reset] asks nothing of the instance; but [getXAPIData] raises a
    [TypeError], and so does [attachInstance] on the (necessarily) not yet
    attached stage, since both read a property of the missing instance. *)
Theorem absent_instance_degrades (host : Host) (w : World) :
  absent (instance (this w)) ->
  isAttached (this w) = false ->
  Exercise.getScore w = Ok (VNumber 0) w /\
  Exercise.getMaxScore w = Ok (VNumber 0) w /\
  Exercise.getAnswerGiven w = Ok (VBool false) w /\
  Exercise.showSolutions w
  = Ok tt (with_this (set_isShowingSolutions true) w) /\
  (exists w1,
     Exercise.reset w = Ok tt w1 /\
     trace w1
     = trace w ++ [OnStateChanged (VNumber 0); RequestIdleCallback]) /\
  Exercise.getXAPIData w = Throw w /\
  Exercise.attachInstance host w = Throw w.
Proof.
  intros Hi Ha.
  assert (Q : forall m, Exercise.query m (instance (this w)) = VUndefined).
  { intros m. now destruct Hi as [-> | ->]. }
  split. { unfold Exercise.getScore, bind, get, ret. now rewrite Q. }
  split. { unfold Exercise.getMaxScore, bind, get, ret. now rewrite Q. }
  split. { unfold Exercise.getAnswerGiven, bind, get, ret. now rewrite Q. }
  split.
  { unfold Exercise.showSolutions, bind, get, ret, update, modify.
    now destruct Hi as [-> | ->]. }
  split.
  { unfold Exercise.reset.
    unfold bind at 1, update at 1, modify at 1.
    change (Val (states_get "unstarted")) with (Val (VNumber 0)).
    unfold bind at 1. rewrite setState_number.
    change (resolve (with_this (set_score (VNumber 0)) w) 0 false)
      with (VNumber 0).
    rewrite notifies_unstarted.
    unfold bind, get, ret, emit, update, modify. simpl. rewrite Ha.
    eexists. split; [reflexivity|]. simpl. now rewrite <- app_assoc. }
  split.
  { unfold Exercise.getXAPIData, bind, get, throw.
    now destruct Hi as [-> | ->]. }
  unfold Exercise.attachInstance, bind, get, throw. rewrite Ha.
  now destruct Hi as [-> | ->].
Qed.

Lemma absent_instance_degrades_witness :
  Exercise.getScore Examples.failed_stage
  = Ok (VNumber 0) Examples.failed_stage /\
  Exercise.getMaxScore Examples.failed_stage
  = Ok (VNumber 0) Examples.failed_stage /\
  Exercise.getAnswerGiven Examples.failed_stage
  = Ok (VBool false) Examples.failed_stage /\
  Exercise.showSolutions Examples.failed_stage
  = Ok tt (with_this (set_isShowingSolutions true) Examples.failed_stage) /\
  (exists w1,
     Exercise.reset Examples.failed_stage = Ok tt w1 /\
     trace w1
     = trace Examples.failed_stage
       ++ [OnStateChanged (VNumber 0); RequestIdleCallback]) /\
  Exercise.getXAPIData Examples.failed_stage = Throw Examples.failed_stage /\
  Exercise.attachInstance (Examples.host_giving SUndefined)
    Examples.failed_stage = Throw Examples.failed_stage.
Proof.
  apply (absent_instance_degrades (Examples.host_giving SUndefined)
           Examples.failed_stage).
  - left. reflexivity.
  - reflexivity.
Defined.

(** ** Event bubbling *)

Lemma trigger_S (fuel : nat) (o : obj) (eventName : string) (ev : event)
    (w : World) :
  Exercise.trigger (S fuel) o eventName ev w =
  forEach (Exercise.handlers_for eventName (listeners o w))
    (fun h => Exercise.run_handler (Exercise.trigger fuel) h ev)
    (log (Triggered o eventName) w).
Proof. reflexivity. Qed.

Lemma wired_log (eventName : string) (e : obs) (w : World) :
  wired eventName w -> wired eventName (log e w).
Proof. intros H. exact H. Qed.

Lemma wired_after (eventName : string) (t : list obs) (w : World) :
  wired eventName w -> wired eventName (after t w).
Proof. intros H. exact H. Qed.

(** An event raised by the instance: the flag is set, the main instance is
    triggered, its downward relay sees the flag and returns, the flag is
    cleared. *)
Lemma trigger_up (fuel : nat) (eventName : string) (ev : event) (w : World) :
  wired eventName w ->
  Exercise.trigger (S (S fuel)) Inst eventName ev w
  = Ok tt (after (relay_up eventName) w).
Proof.
  intros [HI HM]. unfold after, relay_up.
  simpl. unfold bind, emit, modify, get. simpl.
  rewrite HI. simpl. unfold bind, modify, get. simpl.
  rewrite HM. simpl. unfold bind, ret, get. simpl.
  unfold set_bubblingUpwards, log. simpl.
  rewrite <- !app_assoc. reflexivity.
Qed.

(** An event raised by the main instance while its flag is set goes to no
    target, attached or not. *)
Lemma trigger_down_while_bubbling (fuel : nat) (eventName : string)
    (ev : event) (w : World) :
  wired eventName w -> flagMain w = true ->
  Exercise.trigger (S fuel) Main eventName ev w
  = Ok tt (log (Triggered Main eventName) w).
Proof.
  intros [HI HM] HF.
  rewrite trigger_S. cbn [listeners]. rewrite HM.
  cbn [forEach Exercise.run_handler]. unfold bind, get, ret.
  cbn [bubblingUpwards log flagMain]. now rewrite HF.
Qed.

Lemma trigger_down_detached (fuel : nat) (eventName : string) (ev : event)
    (w : World) :
  wired eventName w -> flagMain w = false -> isAttached (this w) = false ->
  Exercise.trigger (S fuel) Main eventName ev w
  = Ok tt (log (Triggered Main eventName) w).
Proof.
  intros [HI HM] HF HA.
  rewrite trigger_S. cbn [listeners]. rewrite HM.
  cbn [forEach Exercise.run_handler]. unfold bind, get, ret.
  cbn [bubblingUpwards log flagMain]. rewrite HF.
  change (this (log (Triggered Main eventName) w)) with (this w).
  now rewrite HA.
Qed.

Lemma trigger_down_attached (fuel : nat) (eventName : string) (ev : event)
    (w : World) :
  wired eventName w -> flagMain w = false -> isAttached (this w) = true ->
  Exercise.trigger (S (S (S fuel))) Main eventName ev w
  = Ok tt (after (Triggered Main eventName :: relay_up eventName) w).
Proof.
  intros Hw HF HA.
  pose proof (wired_log eventName (Triggered Main eventName) w Hw) as Hw'.
  destruct Hw as [HI HM].
  rewrite trigger_S. cbn [listeners]. rewrite HM.
  cbn [forEach Exercise.run_handler]. unfold bind, get.
  cbn [bubblingUpwards log flagMain]. rewrite HF.
  change (this (log (Triggered Main eventName) w)) with (this w).
  rewrite HA.
  fold (log (Triggered Main eventName) w).
  rewrite (trigger_up fuel eventName ev _ Hw').
  unfold ret, after, log, relay_up. simpl.
  rewrite <- !app_assoc. reflexivity.
Qed.

Lemma deliveries_app (o : obj) (eventName : string) (t u : list obs) :
  deliveries o eventName (t ++ u)
  = (deliveries o eventName t + deliveries o eventName u)%nat.
Proof. unfold deliveries. now rewrite filter_app, length_app. Qed.

Lemma deliveries_relay_up (eventName : string) :
  deliveries Main eventName (relay_up eventName) = 1%nat /\
  deliveries Inst eventName (relay_up eventName) = 1%nat.
Proof.
  unfold deliveries, relay_up. simpl.
  rewrite String.eqb_refl. split; reflexivity.
Qed.

(** C8: when the instance raises an event under a bubbled name, the trace
    grows by exactly: the raise itself, the flag of the main instance set,
    one trigger of the main instance under the same name, the flag
    cleared. So the parent sees the event once, the instance is triggered
    no second time (the downward relay found the flag set), and the flag
    is cleared when the dispatch returns. *)
Theorem bubbleUp_relays_once (fuel : nat) (eventName : string) (ev : event)
    (w : World) :
  wired eventName w ->
  (2 <= fuel)%nat ->
  exists w1,
    Exercise.trigger fuel Inst eventName ev w = Ok tt w1 /\
    trace w1
    = trace w
      ++ [ Triggered Inst eventName;
           SetBubblingUpwards Main true;
           Triggered Main eventName;
           SetBubblingUpwards Main false ] /\
    deliveries Main eventName (trace w1)
    = S (deliveries Main eventName (trace w)) /\
    deliveries Inst eventName (trace w1)
    = S (deliveries Inst eventName (trace w)) /\
    bubblingUpwards Main w1 = false /\
    this w1 = this w.
Proof.
  intros Hw Hf.
  destruct fuel as [|[|fuel]]; [lia|lia|].
  rewrite (trigger_up fuel eventName ev w Hw).
  exists (after (relay_up eventName) w).
  destruct (deliveries_relay_up eventName) as [DM DI].
  split; [reflexivity|]. split; [reflexivity|].
  cbn [after trace]. rewrite !deliveries_app, DM, DI.
  repeat split; lia.
Qed.

Lemma bubbleUp_relays_once_witness :
  exists w1,
    Exercise.trigger 2 Inst "resize" EvPlain Examples.quiz_stage
    = Ok tt w1 /\
    trace w1
    = trace Examples.quiz_stage
      ++ [ Triggered Inst "resize";
           SetBubblingUpwards Main true;
           Triggered Main "resize";
           SetBubblingUpwards Main false ] /\
    deliveries Main "resize" (trace w1)
    = S (deliveries Main "resize" (trace Examples.quiz_stage)) /\
    deliveries Inst "resize" (trace w1)
    = S (deliveries Inst "resize" (trace Examples.quiz_stage)) /\
    bubblingUpwards Main w1 = false /\
    this w1 = this Examples.quiz_stage.
Proof.
  apply (bubbleUp_relays_once 2 "resize" EvPlain Examples.quiz_stage).
  - split; reflexivity.
  - lia.
Defined.

(** A successful construction installs exactly the two relays of
    ['resize'] and leaves the stage detached. *)
Lemma constructor_wires (host : Host) (p : Params) (i : Instance) :
  Exercise.name_is (Exercise.machineName p) "H5P.Video" = false ->
  Exercise.name_is (Exercise.machineName p) "H5P.Audio" = false ->
  newRunnable host (contentType p) (previousState p) = SObject i ->
  exists w,
    Exercise.constructor host p = Ok tt w /\
    wired "resize" w /\
    flagMain w = false /\
    isAttached (this w) = false /\
    instance (this w) = SObject i /\
    instantiations (trace w) = 1%nat /\
    Exercise.initializeInstance host w = Ok tt w.
Proof.
  intros Hv Ha Hf.
  unfold Exercise.constructor. unfold bind at 1.
  change (Exercise.setState (Val (states_get "unstarted")) false
            (Exercise.fresh p))
    with (Ok tt (stored (VNumber 0) (Exercise.fresh p))).
  cbv beta iota.
  unfold Exercise.initializeInstance at 1.
  unfold Exercise.bubbleUp, Exercise.bubbleDown.
  unfold bind, get, ret, emit, update, modify.
  simpl. rewrite Hv, Ha. simpl. rewrite Hf. simpl.
  match goal with
  | |- context [if truthy ?c then _ else _] => destruct (truthy c)
  end;
    eexists; (split; [reflexivity|]); unfold wired; simpl;
    repeat split; apply initializeInstance_settled; simpl; discriminate.
Qed.

(** Attaching succeeds on an instance that can be attached and names its
    library; it marks the stage attached and leaves the wiring alone. *)
Lemma attachInstance_attaches (host : Host) (w w1 : World) :
  Exercise.attachInstance host w = Ok tt w1 ->
  isAttached (this w1) = true /\
  listenersMain w1 = listenersMain w /\
  listenersInst w1 = listenersInst w /\
  flagMain w1 = flagMain w.
Proof.
  unfold Exercise.attachInstance, bind, get, ret, emit, update, modify, throw.
  destruct (isAttached (this w)) eqn:HA.
  { intros [= <-]. now rewrite HA. }
  destruct (instance (this w)) as [| |i]; try discriminate.
  destruct (H5P.attach i); try discriminate.
  destruct (libraryInfo i) as [name|]; try discriminate.
  destruct (String.eqb name "H5P.Audio"); [destruct (chrome host)|];
    [destruct (audio i)| |]; try discriminate;
    intros [= <-]; repeat split.
Qed.

(** Events raised one after the other by the main instance: each one
    reaches the instance once when the stage is attached, none does when
    it is not. *)
Lemma trigger_down_sequence (fuel : nat) (eventName : string)
    (evs : list event) :
  forall w : World,
    wired eventName w ->
    flagMain w = false ->
    exists w1,
      forEach evs (Exercise.trigger (S (S (S fuel))) Main eventName) w
      = Ok tt w1 /\
      deliveries Inst eventName (trace w1)
      = (deliveries Inst eventName (trace w)
         + (if isAttached (this w) then List.length evs else 0))%nat /\
      this w1 = this w.
Proof.
  induction evs as [|ev evs IH]; intros w Hw HF.
  - exists w. simpl. repeat split. destruct (isAttached (this w)); lia.
  - cbn [forEach]. unfold bind.
    destruct (isAttached (this w)) eqn:HA.
    + rewrite (trigger_down_attached fuel eventName ev w Hw HF HA).
      destruct (IH (after (Triggered Main eventName :: relay_up eventName) w))
        as (w1 & E & D & T); [now apply wired_after | reflexivity |].
      exists w1. split; [exact E|]. split; [|exact T].
      rewrite D. cbn [after this trace]. rewrite HA.
      change (Triggered Main eventName :: relay_up eventName)
        with ([Triggered Main eventName] ++ relay_up eventName).
      rewrite !deliveries_app.
      destruct (deliveries_relay_up eventName) as [_ ->].
      cbn [List.length]. unfold deliveries at 2. simpl. lia.
    + rewrite (trigger_down_detached (S (S fuel)) eventName ev w Hw HF HA).
      destruct (IH (log (Triggered Main eventName) w))
        as (w1 & E & D & T); [now apply wired_log | exact HF |].
      exists w1. split; [exact E|]. split; [|exact T].
      rewrite D. cbn [log this trace]. rewrite HA.
      rewrite deliveries_app. unfold deliveries at 2. simpl. lia.
Qed.

(** C9: on a stage wired for [eventName], with the flag of the main
    instance not set, events raised by the main instance are not delivered
    to the instance while the stage is not attached, and once it is
    attached each of them is delivered to the instance, once and under the
    same name. *)
Theorem bubbleDown_requires_attachment (fuel : nat) (eventName : string)
    (evs : list event) (w : World) :
  wired eventName w ->
  flagMain w = false ->
  (3 <= fuel)%nat ->
  exists w1,
    forEach evs (Exercise.trigger fuel Main eventName) w = Ok tt w1 /\
    deliveries Inst eventName (trace w1)
    = (deliveries Inst eventName (trace w)
       + (if isAttached (this w) then List.length evs else 0))%nat.
Proof.
  intros Hw HF Hfuel.
  destruct fuel as [|[|[|fuel]]]; [lia|lia|lia|].
  destruct (trigger_down_sequence fuel eventName evs w Hw HF)
    as (w1 & E & D & _).
  exists w1. split; assumption.
Qed.

Lemma bubbleDown_requires_attachment_witness :
  exists w1,
    forEach [EvPlain; EvPlain] (Exercise.trigger 3 Main "resize")
      Examples.opened_quiz_stage = Ok tt w1 /\
    deliveries Inst "resize" (trace w1)
    = (deliveries Inst "resize" (trace Examples.opened_quiz_stage)
       + (if isAttached (this Examples.opened_quiz_stage)
          then List.length [EvPlain; EvPlain] else 0))%nat.
Proof.
  apply (bubbleDown_requires_attachment 3 "resize" [EvPlain; EvPlain]
           Examples.opened_quiz_stage).
  - split; reflexivity.
  - reflexivity.
  - lia.
Defined.

(** ** The scenarios of the specification, run on the code *)

Example quiz_stage_opens :
  Exercise.handleViewed (Examples.host_giving (SObject Examples.quiz))
    Examples.quiz_stage
  = Ok tt Examples.opened_quiz_stage /\
  state (this Examples.opened_quiz_stage) = VNumber 4 /\
  isAttached (this Examples.opened_quiz_stage) = true /\
  trace Examples.opened_quiz_stage
  = [ OnStateChanged (VNumber 0);
      NewRunnable (contentType (Examples.descriptor "H5P.MultiChoice 1.16"))
        VUndefined;
      CallAttach;
      OnStateChanged (VNumber 4);
      RequestAnimationFrame ].
Proof. repeat split. Qed.

Example text_stage_clears :
  exists w,
    Exercise.handleViewed (Examples.host_giving (SObject Examples.text))
      Examples.text_stage = Ok tt w /\
    state (this w) = VNumber 6 /\
    callbacks (trace w)
    = [OnStateChanged (VNumber 0); OnStateChanged (VNumber 6)].
Proof. eexists. repeat split. Qed.

Example quiz_scores_three_of_five :
  exists w,
    Exercise.trigger 1 Inst "xAPI" (EvXAPI (VNumber 3))
      Examples.opened_quiz_stage = Ok tt w /\
    state (this w) = VNumber 5 /\
    score (this w) = VNumber 3 /\
    callbacks (trace w)
    = [ OnStateChanged (VNumber 0); OnStateChanged (VNumber 4);
        OnStateChanged (VNumber 5); OnScoreChanged (VNumber 3) ].
Proof. eexists. repeat split. Qed.

Example quiz_scores_five_of_five :
  exists w,
    Exercise.trigger 1 Inst "xAPI" (EvXAPI (VNumber 5))
      Examples.opened_quiz_stage = Ok tt w /\
    state (this w) = VNumber 6 /\
    score (this w) = VNumber 5 /\
    callbacks (trace w)
    = [ OnStateChanged (VNumber 0); OnStateChanged (VNumber 4);
        OnStateChanged (VNumber 6); OnScoreChanged (VNumber 5) ].
Proof. eexists. repeat split. Qed.

Example failed_stage_cannot_be_viewed :
  instance (this Examples.failed_stage) = SUndefined /\
  Exercise.handleViewed (Examples.host_giving SUndefined)
    Examples.failed_stage = Throw Examples.failed_stage.
Proof. split; reflexivity. Qed.

Example reset_twice_notifies_twice :
  exists w1 w2,
    Exercise.reset Examples.quiz_stage = Ok tt w1 /\
    Exercise.reset w1 = Ok tt w2 /\
    callbacks (trace w2)
    = [ OnStateChanged (VNumber 0); OnStateChanged (VNumber 0);
        OnStateChanged (VNumber 0) ].
Proof.
  pose (after := fun w => match Exercise.reset w with
                          | Ok _ w' => w'
                          | _ => w
                          end).
  exists (after Examples.quiz_stage), (after (after Examples.quiz_stage)).
  split; [vm_compute; reflexivity|].
  split; vm_compute; reflexivity.
Qed.

(** ** Beyond the claims: the machine name and the adaptation of the
    descriptor *)

Lemma first_word_app (name rest : string) :
  no_space name = true ->
  Exercise.first_word (name ++ String " " rest)%string = name.
Proof.
  induction name as [|c name IH]; simpl; intros H; trivial.
  apply andb_prop in H. destruct H as [Hc Hn].
  destruct (Ascii.eqb c " ") eqn:E; [discriminate|].
  now rewrite IH.
Qed.

Lemma first_word_whole (name : string) :
  no_space name = true -> Exercise.first_word name = name.
Proof.
  induction name as [|c name IH]; simpl; intros H; trivial.
  apply andb_prop in H. destruct H as [Hc Hn].
  destruct (Ascii.eqb c " ") eqn:E; [discriminate|].
  now rewrite IH.
Qed.

Lemma first_word_no_space (s : string) :
  no_space (Exercise.first_word s) = true.
Proof.
  induction s as [|c s IH]; simpl; trivial.
  destruct (Ascii.eqb c " ") eqn:E; simpl; trivial.
  now rewrite E, IH.
Qed.

(** X1: the machine name of a stage is its library string up to the first
    blank: a library ["name version"] whose name has no blank gives
    [name], a library without version gives the whole string, and the
    machine name never contains a blank. *)
Theorem machineName_of_library (name version : string)
    (cp : option ContentParams) (previous : value) :
  no_space name = true ->
  Exercise.machineName
    {| contentType :=
         Some {| library := Some (name ++ String " " version)%string;
                 cparams := cp |};
       previousState := previous |} = Some name /\
  Exercise.machineName
    {| contentType := Some {| library := Some name; cparams := cp |};
       previousState := previous |} = Some name /\
  forall lib,
    exists word,
      Exercise.machineName
        {| contentType := Some {| library := Some lib; cparams := cp |};
           previousState := previous |} = Some word /\
      no_space word = true.
Proof.
  intros H. unfold Exercise.machineName. simpl.
  rewrite first_word_app, first_word_whole by assumption.
  repeat split.
  intros lib. exists (Exercise.first_word lib).
  split; [reflexivity | apply first_word_no_space].
Qed.

Lemma machineName_of_library_witness :
  Exercise.machineName
    {| contentType :=
         Some {| library := Some ("H5P.Video" ++ String " " "1.6")%string;
                 cparams := None |};
       previousState := VUndefined |} = Some "H5P.Video" /\
  Exercise.machineName
    {| contentType := Some {| library := Some "H5P.Video"; cparams := None |};
       previousState := VUndefined |} = Some "H5P.Video" /\
  forall lib,
    exists word,
      Exercise.machineName
        {| contentType := Some {| library := Some lib; cparams := None |};
           previousState := VUndefined |} = Some word /\
      no_space word = true.
Proof.
  apply (machineName_of_library "H5P.Video" "1.6" None VUndefined).
  reflexivity.
Defined.

Lemma streamable_truthy (srcs : list Source) :
  truthy (Exercise.streamable srcs) = true <->
  exists first rest,
    srcs = first :: rest /\
    (mime first = "video/mp4" \/ mime first = "video/webm"
     \/ mime first = "video/ogg").
Proof.
  destruct srcs as [|first rest]; simpl.
  - split; [discriminate|]. intros (f & r & E & _). discriminate E.
  - rewrite !orb_true_iff, !String.eqb_eq. split.
    + intros H. exists first, rest. split; trivial. tauto.
    + intros (f & r & E & H). injection E as -> ->. tauto.
Qed.

(** X2: for a stage of type [H5P.Video] whose descriptor has visuals and
    sources, the first [initializeInstance] overwrites [visuals.fit] before
    it asks the factory, so the factory (asked once) and the stage both
    hold the adapted descriptor; [fit] is truthy exactly when the first
    source is mp4, webm or ogg, and is the number 0 without sources. *)
Theorem initializeInstance_adapts_video (host : Host) (w : World)
    (lib : string) (v : Visuals) (srcs : list Source)
    (mode : option string) (wrap previous : value) :
  instance (this w) = SUndefined ->
  params (this w)
  = {| contentType :=
         Some {| library := Some lib;
                 cparams :=
                   Some {| visuals := Some v; sources := Some srcs;
                           playerMode := mode; fitToWrapper := wrap |} |};
       previousState := previous |} ->
  Exercise.first_word lib = "H5P.Video" ->
  let adapted :=
    Some {| library := Some lib;
            cparams :=
              Some {| visuals := Some {| fit := Exercise.streamable srcs |};
                      sources := Some srcs;
                      playerMode := mode; fitToWrapper := wrap |} |} in
  exists w1,
    Exercise.initializeInstance host w = Ok tt w1 /\
    contentType (params (this w1)) = adapted /\
    instance (this w1) = newRunnable host adapted previous /\
    trace w1 = trace w ++ [NewRunnable adapted previous] /\
    Exercise.streamable [] = VNumber 0 /\
    (truthy (Exercise.streamable srcs) = true <->
     exists first rest,
       srcs = first :: rest /\
       (mime first = "video/mp4" \/ mime first = "video/webm"
        \/ mime first = "video/ogg")).
Proof.
  intros Hi Hp Hn adapted.
  unfold Exercise.initializeInstance, Exercise.fitVideo, Exercise.fitAudio,
    Exercise.bubbleUp, Exercise.bubbleDown.
  unfold bind, get, ret, emit, update, modify, throw.
  rewrite Hi, Hp. unfold Exercise.machineName. simpl. rewrite Hn. simpl.
  rewrite Hp. simpl. rewrite Hi. simpl.
  fold adapted.
  destruct (newRunnable host adapted previous) as [| |i] eqn:Hf; simpl.
  - eexists. split; [reflexivity|]. simpl.
    repeat split; auto; apply streamable_truthy.
  - eexists. split; [reflexivity|]. simpl.
    repeat split; auto; apply streamable_truthy.
  - match goal with
    | |- context [if truthy ?c then _ else _] => destruct (truthy c)
    end;
      (eexists; split; [reflexivity|]; simpl;
       repeat split; auto; apply streamable_truthy).
Qed.

Lemma initializeInstance_adapts_video_witness :
  let host := Examples.host_giving (SObject Examples.quiz) in
  let w := Exercise.fresh (Stages.video_params [Stages.mp4]) in
  let adapted :=
    Some {| library := Some "H5P.Video 1.6";
            cparams :=
              Some {| visuals :=
                        Some {| fit := Exercise.streamable [Stages.mp4] |};
                      sources := Some [Stages.mp4];
                      playerMode := None; fitToWrapper := VUndefined |} |} in
  exists w1,
    Exercise.initializeInstance host w = Ok tt w1 /\
    contentType (params (this w1)) = adapted /\
    instance (this w1) = newRunnable host adapted VUndefined /\
    trace w1 = trace w ++ [NewRunnable adapted VUndefined] /\
    Exercise.streamable [] = VNumber 0 /\
    (truthy (Exercise.streamable [Stages.mp4]) = true <->
     exists first rest,
       [Stages.mp4] = first :: rest /\
       (mime first = "video/mp4" \/ mime first = "video/webm"
        \/ mime first = "video/ogg")).
Proof.
  intros host w adapted.
  apply (initializeInstance_adapts_video host w "H5P.Video 1.6"
           {| fit := VUndefined |} [Stages.mp4] None VUndefined VUndefined);
    reflexivity.
Defined.

(** X3: when the descriptor of an [H5P.Video] stage lacks its parameters,
    its visuals or its sources, or the descriptor of an [H5P.Audio] stage
    lacks its parameters, [initializeInstance] raises a [TypeError] before
    the factory is asked: the world is unchanged, no instance exists, and a
    later call throws again. *)
Theorem initializeInstance_adaptation_throws (host : Host) (w : World)
    (lib : string) (cp : option ContentParams) :
  instance (this w) = SUndefined ->
  contentType (params (this w))
  = Some {| library := Some lib; cparams := cp |} ->
  (Exercise.first_word lib = "H5P.Video" /\
   match cp with
   | Some p => visuals p = None \/ sources p = None
   | None => True
   end)
  \/ (Exercise.first_word lib = "H5P.Audio" /\ cp = None) ->
  Exercise.initializeInstance host w = Throw w.
Proof.
  intros Hi Hp H.
  unfold Exercise.initializeInstance, Exercise.fitVideo, Exercise.fitAudio.
  unfold bind, get, ret, throw.
  rewrite Hi. unfold Exercise.machineName. rewrite Hp. simpl.
  destruct H as [[Hn Hc] | [Hn ->]]; rewrite Hn; simpl; rewrite ?Hp; simpl;
    trivial.
  destruct cp as [p|]; trivial.
  destruct Hc as [-> | Hs]; trivial.
  rewrite Hs. now destruct (visuals p).
Qed.

Lemma initializeInstance_adaptation_throws_witness :
  Exercise.initializeInstance (Examples.host_giving (SObject Examples.quiz))
    (Exercise.fresh (Examples.descriptor "H5P.Video 1.6"))
  = Throw (Exercise.fresh (Examples.descriptor "H5P.Video 1.6")).
Proof.
  apply (initializeInstance_adaptation_throws
           (Examples.host_giving (SObject Examples.quiz))
           (Exercise.fresh (Examples.descriptor "H5P.Video 1.6"))
           "H5P.Video 1.6" None).
  - reflexivity.
  - reflexivity.
  - left. split; [reflexivity | exact I].
Defined.

(** X4: for a stage of type [H5P.Audio], the first [initializeInstance]
    sets [fitToWrapper] to [true] when the player mode is ['full'] and
    leaves the descriptor as it is otherwise; the factory is asked once,
    with the descriptor the stage then holds. *)
Theorem initializeInstance_adapts_audio (host : Host) (w : World)
    (lib : string) (v : option Visuals) (srcs : option (list Source))
    (mode : option string) (wrap previous : value) :
  instance (this w) = SUndefined ->
  params (this w)
  = {| contentType :=
         Some {| library := Some lib;
                 cparams :=
                   Some {| visuals := v; sources := srcs;
                           playerMode := mode; fitToWrapper := wrap |} |};
       previousState := previous |} ->
  Exercise.first_word lib = "H5P.Audio" ->
  let adapted :=
    Some {| library := Some lib;
            cparams :=
              Some {| visuals := v; sources := srcs; playerMode := mode;
                      fitToWrapper :=
                        if Exercise.name_is mode "full" then VBool true
                        else wrap |} |} in
  exists w1,
    Exercise.initializeInstance host w = Ok tt w1 /\
    contentType (params (this w1)) = adapted /\
    instance (this w1) = newRunnable host adapted previous /\
    trace w1 = trace w ++ [NewRunnable adapted previous].
Proof.
  intros Hi Hp Hn adapted.
  unfold Exercise.initializeInstance, Exercise.fitVideo, Exercise.fitAudio,
    Exercise.bubbleUp, Exercise.bubbleDown.
  unfold bind, get, ret, emit, update, modify, throw.
  rewrite Hi, Hp. unfold Exercise.machineName. simpl. rewrite Hn. simpl.
  rewrite Hp. simpl.
  subst adapted.
  destruct (Exercise.name_is mode "full"); simpl; rewrite ?Hp, ?Hi; simpl;
    rewrite ?Hp, ?Hi; simpl;
    match goal with
    | |- context [set_instance ?r] => destruct r as [| |i]
    end; simpl;
    try match goal with
    | |- context [if truthy ?c then (fun _ => _) else _] =>
        destruct (truthy c)
    end;
    (eexists; split; [reflexivity|]; simpl; repeat split; auto;
     now rewrite Hp).
Qed.

Lemma initializeInstance_adapts_audio_witness :
  let host := Examples.host_giving (SObject Stages.player) in
  let w := Exercise.fresh (Stages.audio_params "full") in
  let adapted :=
    Some {| library := Some "H5P.Audio 1.5";
            cparams :=
              Some {| visuals := None; sources := None;
                      playerMode := Some "full";
                      fitToWrapper :=
                        if Exercise.name_is (Some "full") "full"
                        then VBool true else VUndefined |} |} in
  exists w1,
    Exercise.initializeInstance host w = Ok tt w1 /\
    contentType (params (this w1)) = adapted /\
    instance (this w1) = newRunnable host adapted VUndefined /\
    trace w1 = trace w ++ [NewRunnable adapted VUndefined].
Proof.
  intros host w adapted.
  apply (initializeInstance_adapts_audio host w "H5P.Audio 1.5"
           None None (Some "full") VUndefined VUndefined);
    reflexivity.
Defined.

(** ** Beyond the claims: what a successful construction leaves behind *)

(** The world after the construction of a stage whose content type needs
    no adaptation and whose factory answers an instance. *)
Lemma constructor_success (host : Host) (p : Params) (i : Instance) :
  Exercise.name_is (Exercise.machineName p) "H5P.Video" = false ->
  Exercise.name_is (Exercise.machineName p) "H5P.Audio" = false ->
  newRunnable host (contentType p) (previousState p) = SObject i ->
  exists w,
    Exercise.constructor host p = Ok tt w /\
    this w = {| params := p; state := VNumber 0; score := VUndefined;
                instance := SObject i; isAttached := false;
                isShowingSolutions := false |} /\
    listenersMain w = [("resize", BubbleDownH Main "resize" [Inst])] /\
    listenersInst w
    = ("resize", BubbleUpH "resize" Main)
      :: (if declared_task (SObject i) then [("xAPI", TrackXAPIH)] else []) /\
    flagMain w = false /\
    flagInst w = false /\
    trace w = [ OnStateChanged (VNumber 0);
                NewRunnable (contentType p) (previousState p) ].
Proof.
  intros Hv Ha Hf.
  unfold Exercise.constructor. unfold bind at 1.
  change (Exercise.setState (Val (states_get "unstarted")) false
            (Exercise.fresh p))
    with (Ok tt (stored (VNumber 0) (Exercise.fresh p))).
  cbv beta iota.
  unfold Exercise.initializeInstance.
  unfold Exercise.bubbleUp, Exercise.bubbleDown.
  unfold bind, get, ret, emit, update, modify.
  simpl. rewrite Hv, Ha. simpl. rewrite Hf.
  cbn [slot_truthy negb].
  rewrite isInstanceTask_declared.
  destruct (declared_task (SObject i)) eqn:D; simpl in D;
    eexists; (split; [reflexivity|]); simpl; rewrite ?D; repeat split.
Qed.

Lemma bind_ret_tt (m : M unit) (w : World) :
  bind m (fun _ => ret tt) w = m w.
Proof. unfold bind, ret. now destruct (m w) as [[] w'|w'|]. Qed.

(** X6: after a successful construction, a scoring event raised by the
    instance reaches [trackXAPI] exactly when the instance is a task (a
    truthy [isTask] flag, or a max score above zero); raised by any other
    instance it is dropped, so neither score nor state change and no
    callback is invoked. *)
Theorem xAPI_tracked_only_for_tasks (host : Host) (p : Params)
    (i : Instance) (fuel : nat) (ev : event) :
  Exercise.name_is (Exercise.machineName p) "H5P.Video" = false ->
  Exercise.name_is (Exercise.machineName p) "H5P.Audio" = false ->
  newRunnable host (contentType p) (previousState p) = SObject i ->
  exists w,
    Exercise.constructor host p = Ok tt w /\
    Exercise.trigger (S fuel) Inst "xAPI" ev w
    = if declared_task (SObject i)
      then Exercise.trackXAPI ev (log (Triggered Inst "xAPI") w)
      else Ok tt (log (Triggered Inst "xAPI") w).
Proof.
  intros Hv Ha Hf.
  destruct (constructor_success host p i Hv Ha Hf)
    as (w & E & _ & _ & LI & _).
  exists w. split; [exact E|].
  rewrite trigger_S. cbn [listeners].
  change (listenersInst (log (Triggered Inst "xAPI") w))
    with (listenersInst w).
  rewrite LI.
  destruct (declared_task (SObject i)); simpl; [|reflexivity].
  apply bind_ret_tt.
Qed.

Lemma xAPI_tracked_only_for_tasks_witness :
  exists w,
    Exercise.constructor (Examples.host_giving (SObject Examples.text))
      (Examples.descriptor "H5P.AdvancedText 1.1") = Ok tt w /\
    Exercise.trigger 1 Inst "xAPI" (EvXAPI (VNumber 3)) w
    = if declared_task (SObject Examples.text)
      then Exercise.trackXAPI (EvXAPI (VNumber 3))
             (log (Triggered Inst "xAPI") w)
      else Ok tt (log (Triggered Inst "xAPI") w).
Proof.
  apply (xAPI_tracked_only_for_tasks
           (Examples.host_giving (SObject Examples.text))
           (Examples.descriptor "H5P.AdvancedText 1.1")
           Examples.text 0 (EvXAPI (VNumber 3)));
    reflexivity.
Defined.

Lemma handlers_for_other (eventName name : string) (h : handler)
    (rest : list (string * handler)) :
  eventName <> name ->
  Exercise.handlers_for eventName ((name, h) :: rest)
  = Exercise.handlers_for eventName rest.
Proof.
  intros H. unfold Exercise.handlers_for. simpl.
  destruct (String.eqb name eventName) eqn:E; trivial.
  apply String.eqb_eq in E. congruence.
Qed.

(** X7: only ['resize'] is bubbled. Whatever happens to a successfully
    constructed stage as long as its listeners stay the ones installed, an
    event of another name raised by the main instance is not relayed to
    the instance (attached or not), and an event of another name raised by
    the instance (other than its scoring event) is not relayed to the main
    instance. *)
Theorem only_resize_bubbles (host : Host) (p : Params) (i : Instance)
    (fuel : nat) (eventName : string) (ev : event) (w : World) :
  Exercise.name_is (Exercise.machineName p) "H5P.Video" = false ->
  Exercise.name_is (Exercise.machineName p) "H5P.Audio" = false ->
  newRunnable host (contentType p) (previousState p) = SObject i ->
  listenersMain w
  = listenersMain (Examples.built host p) ->
  listenersInst w
  = listenersInst (Examples.built host p) ->
  eventName <> "resize" ->
  Exercise.trigger (S fuel) Main eventName ev w
  = Ok tt (log (Triggered Main eventName) w) /\
  (eventName <> "xAPI" ->
   Exercise.trigger (S fuel) Inst eventName ev w
   = Ok tt (log (Triggered Inst eventName) w)).
Proof.
  intros Hv Ha Hf HM HI Hn.
  destruct (constructor_success host p i Hv Ha Hf)
    as (w0 & E & _ & LM & LI & _).
  unfold Examples.built in HM, HI. rewrite E in HM, HI.
  rewrite LM in HM. rewrite LI in HI.
  split.
  - rewrite trigger_S. cbn [listeners].
    change (listenersMain (log (Triggered Main eventName) w))
      with (listenersMain w).
    rewrite HM, handlers_for_other by assumption. reflexivity.
  - intros Hx. rewrite trigger_S. cbn [listeners].
    change (listenersInst (log (Triggered Inst eventName) w))
      with (listenersInst w).
    rewrite HI, handlers_for_other by assumption.
    destruct (declared_task (SObject i));
      [rewrite handlers_for_other by assumption|]; reflexivity.
Qed.

Lemma only_resize_bubbles_witness :
  Exercise.trigger 1 Main "scroll" EvPlain Examples.opened_quiz_stage
  = Ok tt (log (Triggered Main "scroll") Examples.opened_quiz_stage) /\
  ("scroll" <> "xAPI" ->
   Exercise.trigger 1 Inst "scroll" EvPlain Examples.opened_quiz_stage
   = Ok tt (log (Triggered Inst "scroll") Examples.opened_quiz_stage)).
Proof.
  apply (only_resize_bubbles
           (Examples.host_giving (SObject Examples.quiz))
           (Examples.descriptor "H5P.MultiChoice 1.16")
           Examples.quiz 0 "scroll" EvPlain Examples.opened_quiz_stage);
    try reflexivity; discriminate.
Defined.

(** ** Beyond the claims: scoring events at the edges *)

(** [trackXAPI] on any score but [null], unfolded once. *)
Lemma trackXAPI_value (w : World) (s : value) :
  s <> VNull ->
  Exercise.trackXAPI (EvXAPI s) w =
  let w0 := with_this (set_score s) w in
  match instance (this w) with
  | SObject i =>
      match H5P.getMaxScore i with
      | Some maxScore =>
          match Exercise.setState
                  (Val (VNumber (if lt s maxScore then 5 else 6)))
                  false w0 with
          | Ok _ w1 => Ok tt (log (OnScoreChanged (score (this w1))) w1)
          | Throw w1 => Throw w1
          | OutOfFuel => OutOfFuel
          end
      | None => Throw w0
      end
  | _ => Throw w0
  end.
Proof.
  intros Hs. unfold Exercise.trackXAPI.
  destruct (strict_eq s VNull) eqn:E.
  { apply strict_eq_true in E. contradiction. }
  unfold bind at 1, update at 1, modify at 1.
  unfold bind at 1, get at 1.
  change (instance (this (with_this (set_score s) w)))
    with (instance (this w)).
  destruct (instance (this w)) as [| |i]; try reflexivity.
  destruct (H5P.getMaxScore i) as [maxScore|]; try reflexivity.
  change (score (this (with_this (set_score s) w))) with s.
  unfold bind, get, emit, modify.
  destruct (lt s maxScore); reflexivity.
Qed.

(** X8: a scoring event on a stage whose instance is absent or has no
    max-score query raises a [TypeError] after the score was overwritten:
    the stored state is untouched and neither callback is invoked. *)
Theorem trackXAPI_without_max_score (w : World) (s : value) :
  s <> VNull ->
  match instance (this w) with
  | SObject i => H5P.getMaxScore i = None
  | _ => True
  end ->
  Exercise.trackXAPI (EvXAPI s) w = Throw (with_this (set_score s) w) /\
  score (this (with_this (set_score s) w)) = s /\
  state (this (with_this (set_score s) w)) = state (this w) /\
  trace (with_this (set_score s) w) = trace w.
Proof.
  intros Hs Hi. rewrite (trackXAPI_value w s Hs). cbv zeta.
  split; [|repeat split].
  destruct (instance (this w)) as [| |i]; trivial. now rewrite Hi.
Qed.

Lemma trackXAPI_without_max_score_witness :
  Exercise.trackXAPI (EvXAPI (VNumber 3)) Stages.survey_stage
  = Throw (with_this (set_score (VNumber 3)) Stages.survey_stage) /\
  score (this (with_this (set_score (VNumber 3)) Stages.survey_stage))
  = VNumber 3 /\
  state (this (with_this (set_score (VNumber 3)) Stages.survey_stage))
  = state (this Stages.survey_stage) /\
  trace (with_this (set_score (VNumber 3)) Stages.survey_stage)
  = trace Stages.survey_stage.
Proof.
  apply (trackXAPI_without_max_score Stages.survey_stage (VNumber 3)).
  - discriminate.
  - reflexivity.
Defined.

(** C2, at the input where the code departs from it: an instance that
    declares itself a task by its [isTask] flag and has no max-score query
    is a task, so its scoring events are tracked; [trackXAPI] then records
    the score and raises a [TypeError] on the unguarded
    [this.instance.getMaxScore()], before any state is resolved and before
    [onScoreChanged] is invoked. *)
Theorem trackXAPI_task_without_max_score (host : Host) (p : Params)
    (i : Instance) (fuel : nat) (s : Z) :
  Exercise.name_is (Exercise.machineName p) "H5P.Video" = false ->
  Exercise.name_is (Exercise.machineName p) "H5P.Audio" = false ->
  newRunnable host (contentType p) (previousState p) = SObject i ->
  truthy (isTask i) = true ->
  H5P.getMaxScore i = None ->
  exists w,
    Exercise.constructor host p = Ok tt w /\
    declared_task (instance (this w)) = true /\
    Exercise.trackXAPI (EvXAPI (VNumber s)) w
    = Throw (with_this (set_score (VNumber s)) w) /\
    Exercise.trigger (S fuel) Inst "xAPI" (EvXAPI (VNumber s)) w
    = Throw (with_this (set_score (VNumber s))
               (log (Triggered Inst "xAPI") w)) /\
    state (this w) = VNumber 0 /\
    callbacks (trace w) = [OnStateChanged (VNumber 0)].
Proof.
  intros Hv Ha Hf Ht Hm.
  destruct (constructor_success host p i Hv Ha Hf)
    as (w & E & TH & _ & LI & _ & _ & TR).
  assert (D : declared_task (SObject i) = true).
  { simpl. now rewrite Ht. }
  assert (Hi : instance (this w) = SObject i) by now rewrite TH.
  assert (V : VNumber s <> VNull) by discriminate.
  assert (K : forall w', instance (this w') = SObject i ->
            Exercise.trackXAPI (EvXAPI (VNumber s)) w'
            = Throw (with_this (set_score (VNumber s)) w')).
  { intros w' Hi'. rewrite (trackXAPI_value w' (VNumber s) V).
    cbv zeta. now rewrite Hi', Hm. }
  exists w. split; [exact E|]. split; [now rewrite Hi|].
  split; [now apply K|]. split; [|split].
  - rewrite trigger_S. cbn [listeners].
    change (listenersInst (log (Triggered Inst "xAPI") w))
      with (listenersInst w).
    rewrite LI, D.
    change (Exercise.handlers_for "xAPI"
              [("resize", BubbleUpH "resize" Main); ("xAPI", TrackXAPIH)])
      with [TrackXAPIH].
    cbn [forEach Exercise.run_handler]. unfold bind.
    now rewrite (K (log (Triggered Inst "xAPI") w) Hi).
  - now rewrite TH.
  - now rewrite TR.
Qed.

Lemma trackXAPI_task_without_max_score_witness :
  let host := Examples.host_giving (SObject Stages.survey) in
  let p := Examples.descriptor "H5P.Survey 1.0" in
  exists w,
    Exercise.constructor host p = Ok tt w /\
    declared_task (instance (this w)) = true /\
    Exercise.trackXAPI (EvXAPI (VNumber 3)) w
    = Throw (with_this (set_score (VNumber 3)) w) /\
    Exercise.trigger 1 Inst "xAPI" (EvXAPI (VNumber 3)) w
    = Throw (with_this (set_score (VNumber 3))
               (log (Triggered Inst "xAPI") w)) /\
    state (this w) = VNumber 0 /\
    callbacks (trace w) = [OnStateChanged (VNumber 0)].
Proof.
  intros host p.
  apply (trackXAPI_task_without_max_score host p Stages.survey 0 3);
    reflexivity.
Defined.

(** The state a scoring event leaves, given the code it resolves to. *)
Lemma setState_score_code (w : World) (code : Z) :
  code = 5 \/ code = 6 ->
  exists w1,
    Exercise.setState (Val (VNumber code)) false w = Ok tt w1 /\
    state (this w1) = VNumber code /\
    score (this w1) = score (this w) /\
    trace w1
    = trace w
      ++ (if strict_eq (state (this w)) (VNumber code) then []
          else [OnStateChanged (VNumber code)]).
Proof.
  intros Hc. rewrite setState_number.
  assert (R : resolve w code false = VNumber code)
    by (destruct Hc as [-> | ->]; reflexivity).
  assert (T : truthy (VNumber code) = true)
    by (destruct Hc as [-> | ->]; reflexivity).
  rewrite R. unfold notifies.
  destruct (strict_eq (state (this w)) (VNumber code)) eqn:E.
  - apply strict_eq_true in E. rewrite E, T. simpl.
    exists w. repeat split; trivial. now rewrite app_nil_r.
  - rewrite orb_true_r. eexists. split; [reflexivity|]. repeat split.
Qed.

(** X9: only a score that is strictly [null] is ignored. An event whose
    score is [undefined] is tracked like any other: [undefined] is
    recorded as the score, the comparison with the max score is false, so
    the stage ends [cleared] (6), and [onScoreChanged] is invoked with
    [undefined]. *)
Theorem trackXAPI_undefined_score (w : World) (i : Instance)
    (maxScore : value) :
  instance (this w) = SObject i ->
  H5P.getMaxScore i = Some maxScore ->
  exists w1,
    Exercise.trackXAPI (EvXAPI VUndefined) w = Ok tt w1 /\
    score (this w1) = VUndefined /\
    state (this w1) = VNumber 6 /\
    trace w1
    = trace w
      ++ (if strict_eq (state (this w)) (VNumber 6) then []
          else [OnStateChanged (VNumber 6)])
      ++ [OnScoreChanged VUndefined].
Proof.
  intros Hi Hm.
  rewrite trackXAPI_value by discriminate. rewrite Hi, Hm. cbv zeta.
  change (lt VUndefined maxScore) with false. cbv iota.
  destruct (setState_score_code (with_this (set_score VUndefined) w) 6)
    as (w1 & E & S1 & S2 & T); [now right|].
  rewrite E. eexists. split; [reflexivity|].
  cbn [log this trace]. rewrite S1, S2, T.
  repeat split. now rewrite <- app_assoc.
Qed.

Lemma trackXAPI_undefined_score_witness :
  exists w1,
    Exercise.trackXAPI (EvXAPI VUndefined) Examples.opened_quiz_stage
    = Ok tt w1 /\
    score (this w1) = VUndefined /\
    state (this w1) = VNumber 6 /\
    trace w1
    = trace Examples.opened_quiz_stage
      ++ (if strict_eq (state (this Examples.opened_quiz_stage)) (VNumber 6)
          then [] else [OnStateChanged (VNumber 6)])
      ++ [OnScoreChanged VUndefined].
Proof.
  apply (trackXAPI_undefined_score Examples.opened_quiz_stage Examples.quiz
           (VNumber 5));
    reflexivity.
Defined.

(** X10: scoring moves the state in both directions. On a [cleared] (6)
    stage a later score below the max score sets the state back to
    [completed] (5) and notifies it; on a [completed] stage a score at or
    above the max score sets it to [cleared] and notifies it. *)
Theorem trackXAPI_moves_both_ways (w : World) (i : Instance) (s m : Z) :
  instance (this w) = SObject i ->
  H5P.getMaxScore i = Some (VNumber m) ->
  (state (this w) = VNumber 6 -> s < m ->
   exists w1,
     Exercise.trackXAPI (EvXAPI (VNumber s)) w = Ok tt w1 /\
     state (this w1) = VNumber 5 /\
     trace w1
     = trace w ++ [OnStateChanged (VNumber 5); OnScoreChanged (VNumber s)]) /\
  (state (this w) = VNumber 5 -> m <= s ->
   exists w1,
     Exercise.trackXAPI (EvXAPI (VNumber s)) w = Ok tt w1 /\
     state (this w1) = VNumber 6 /\
     trace w1
     = trace w ++ [OnStateChanged (VNumber 6); OnScoreChanged (VNumber s)]).
Proof.
  intros Hi Hm.
  assert (V : VNumber s <> VNull) by discriminate.
  split; intros Hs Hlt;
    rewrite (trackXAPI_value w (VNumber s) V), Hi, Hm; cbv zeta;
    change (lt (VNumber s) (VNumber m)) with (s <? m).
  - apply Z.ltb_lt in Hlt. rewrite Hlt.
    destruct (setState_score_code (with_this (set_score (VNumber s)) w) 5)
      as (w1 & E & S1 & S2 & T); [now left|].
    rewrite E. eexists. split; [reflexivity|].
    cbn [log this trace]. rewrite S1, S2, T.
    change (state (this (with_this (set_score (VNumber s)) w)))
      with (state (this w)).
    rewrite Hs. simpl. split; trivial. now rewrite <- app_assoc.
  - apply Z.ltb_ge in Hlt. rewrite Hlt.
    destruct (setState_score_code (with_this (set_score (VNumber s)) w) 6)
      as (w1 & E & S1 & S2 & T); [now right|].
    rewrite E. eexists. split; [reflexivity|].
    cbn [log this trace]. rewrite S1, S2, T.
    change (state (this (with_this (set_score (VNumber s)) w)))
      with (state (this w)).
    rewrite Hs. simpl. split; trivial. now rewrite <- app_assoc.
Qed.

Lemma trackXAPI_moves_both_ways_witness :
  let w := Examples.in_state 6 Examples.quiz_stage in
  (state (this w) = VNumber 6 -> 3 < 5 ->
   exists w1,
     Exercise.trackXAPI (EvXAPI (VNumber 3)) w = Ok tt w1 /\
     state (this w1) = VNumber 5 /\
     trace w1
     = trace w ++ [OnStateChanged (VNumber 5); OnScoreChanged (VNumber 3)]) /\
  (state (this w) = VNumber 5 -> 5 <= 3 ->
   exists w1,
     Exercise.trackXAPI (EvXAPI (VNumber 3)) w = Ok tt w1 /\
     state (this w1) = VNumber 6 /\
     trace w1
     = trace w ++ [OnStateChanged (VNumber 6); OnScoreChanged (VNumber 3)]).
Proof.
  intros w.
  apply (trackXAPI_moves_both_ways w Examples.quiz 3 5); reflexivity.
Defined.

(** ** Beyond the claims: [reset], [attachInstance], [handleViewed] *)

(** X11: [reset] never throws and always invokes [onStateChanged] with
    [unstarted] (0), whatever the state was, even when it already was 0.
    It sets score and state to 0, clears the solutions flag, keeps
    parameters, instance and attachment, asks the instance to reset its
    task exactly when the stage is attached and the instance can, and
    schedules the idle callback last. *)
Theorem reset_effects (w : World) :
  exists w1,
    Exercise.reset w = Ok tt w1 /\
    this w1
    = {| params := params (this w); state := VNumber 0;
         score := VNumber 0; instance := instance (this w);
         isAttached := isAttached (this w);
         isShowingSolutions := false |} /\
    trace w1
    = trace w
      ++ [OnStateChanged (VNumber 0)]
      ++ (if isAttached (this w)
             && match instance (this w) with
                | SObject i => resetTask i
                | _ => false
                end
          then [CallResetTask] else [])
      ++ [RequestIdleCallback] /\
    listenersMain w1 = listenersMain w /\
    listenersInst w1 = listenersInst w.
Proof.
  unfold Exercise.reset.
  unfold bind at 1, update at 1, modify at 1.
  change (Val (states_get "unstarted")) with (Val (VNumber 0)).
  unfold bind at 1. rewrite setState_number.
  change (resolve (with_this (set_score (VNumber 0)) w) 0 false)
    with (VNumber 0).
  rewrite notifies_unstarted.
  unfold bind, get, ret, emit, update, modify. simpl.
  destruct (isAttached (this w)) eqn:HA;
    destruct (instance (this w)) as [| |i] eqn:Hi; simpl;
    try destruct (resetTask i);
    (eexists; split; [reflexivity|]);
    unfold stored, log, with_this, set_isShowingSolutions, set_state,
      set_score;
    simpl; rewrite ?HA, ?Hi; repeat split; now rewrite <- ?app_assoc.
Qed.

(** X12: a successful [attachInstance] on a stage that was not attached
    calls the instance's [attach] once (followed by the height patch only
    for [H5P.Audio] under Chrome), marks the stage attached, and makes any
    further [attachInstance] a no-op. *)
Theorem attachInstance_once (host : Host) (w w1 : World) :
  isAttached (this w) = false ->
  Exercise.attachInstance host w = Ok tt w1 ->
  isAttached (this w1) = true /\
  (exists i name,
     instance (this w) = SObject i /\ libraryInfo i = Some name /\
     trace w1
     = trace w
       ++ CallAttach
          :: (if String.eqb name "H5P.Audio" && chrome host
              then [SetAudioHeight] else [])) /\
  Exercise.attachInstance host w1 = Ok tt w1.
Proof.
  intros HA.
  unfold Exercise.attachInstance at 1.
  unfold bind, get, ret, emit, update, modify, throw. rewrite HA.
  destruct (instance (this w)) as [| |i] eqn:Hi; try discriminate.
  destruct (H5P.attach i); try discriminate.
  destruct (libraryInfo i) as [name|] eqn:Hl; try discriminate.
  assert (Again : forall w', isAttached (this w') = true ->
                             Exercise.attachInstance host w' = Ok tt w').
  { intros w' H. unfold Exercise.attachInstance, bind, get, ret.
    now rewrite H. }
  destruct (String.eqb name "H5P.Audio") eqn:En; [destruct (chrome host)|];
    [destruct (audio i)| |]; try discriminate;
    intros [= <-]; (split; [reflexivity|]);
    (split; [|now apply Again]);
    exists i, name; (split; [reflexivity|]); (split; [exact Hl|]);
    simpl; rewrite En; simpl; now rewrite <- ?app_assoc.
Qed.

Lemma attachInstance_once_witness :
  let host := Examples.host_giving (SObject Examples.quiz) in
  let w1 := with_this (set_isAttached true)
              (log CallAttach Examples.quiz_stage) in
  isAttached (this w1) = true /\
  (exists i name,
     instance (this Examples.quiz_stage) = SObject i /\
     libraryInfo i = Some name /\
     trace w1
     = trace Examples.quiz_stage
       ++ CallAttach
          :: (if String.eqb name "H5P.Audio" && chrome host
              then [SetAudioHeight] else [])) /\
  Exercise.attachInstance host w1 = Ok tt w1.
Proof.
  intros host w1.
  apply (attachInstance_once host Examples.quiz_stage w1); reflexivity.
Defined.

(** X13: when [attachInstance] throws after the instance was attached (the
    instance names no library, or it is an [H5P.Audio] under Chrome whose
    audio element is missing), the stage is not marked attached, so the
    next [attachInstance] calls the instance's [attach] a second time. *)
Theorem attachInstance_throws_after_attach (host : Host) (w : World)
    (i : Instance) :
  isAttached (this w) = false ->
  instance (this w) = SObject i ->
  H5P.attach i = true ->
  libraryInfo i = None
  \/ (libraryInfo i = Some "H5P.Audio" /\ chrome host = true
      /\ audio i = false) ->
  Exercise.attachInstance host w = Throw (log CallAttach w) /\
  isAttached (this (log CallAttach w)) = false /\
  Exercise.attachInstance host (log CallAttach w)
  = Throw (log CallAttach (log CallAttach w)).
Proof.
  intros HA Hi Ht H.
  assert (E : forall w', isAttached (this w') = false ->
                         instance (this w') = SObject i ->
                         Exercise.attachInstance host w'
                         = Throw (log CallAttach w')).
  { intros w' HA' Hi'.
    unfold Exercise.attachInstance.
    unfold bind, get, ret, emit, update, modify, throw.
    rewrite HA', Hi', Ht.
    destruct H as [-> | (-> & -> & ->)]; reflexivity. }
  split; [now apply E|]. split; [exact HA|]. now apply E.
Qed.

Lemma attachInstance_throws_after_attach_witness :
  let host := Stages.chrome_giving (SObject Stages.player) in
  Exercise.attachInstance host Stages.player_stage
  = Throw (log CallAttach Stages.player_stage) /\
  isAttached (this (log CallAttach Stages.player_stage)) = false /\
  Exercise.attachInstance host (log CallAttach Stages.player_stage)
  = Throw (log CallAttach (log CallAttach Stages.player_stage)).
Proof.
  intros host.
  apply (attachInstance_throws_after_attach host Stages.player_stage
           Stages.player); try reflexivity.
  right. repeat split.
Defined.

Lemma constructor_wires_witness :
  let host := Examples.host_giving (SObject Examples.quiz) in
  let p := Examples.descriptor "H5P.MultiChoice 1.16" in
  exists w,
    Exercise.constructor host p = Ok tt w /\
    wired "resize" w /\
    flagMain w = false /\
    isAttached (this w) = false /\
    instance (this w) = SObject Examples.quiz /\
    instantiations (trace w) = 1%nat /\
    Exercise.initializeInstance host w = Ok tt w.
Proof.
  intros host p.
  apply (constructor_wires host p Examples.quiz); reflexivity.
Defined.

(** ** Beyond the claims: the constructor of [GameMap] *)

Lemma sanitize_empty (raw : list GameMap.Element) :
  GameMap.sanitize raw = [] <->
  forall e, In e raw -> GameMap.has_library e = false.
Proof.
  unfold GameMap.sanitize. induction raw as [|e raw IH]; simpl.
  - split; [intros _ e []|trivial].
  - destruct (GameMap.has_library e) eqn:E.
    + split; [discriminate|]. intros H.
      rewrite (H e) in E by now left. discriminate.
    + rewrite IH. split.
      * intros H x [<- | Hx]; auto.
      * intros H x Hx. apply H. now right.
Qed.

(** X14: the map builds its content exactly when a background image is
    set and at least one raw element has a non-empty library string;
    without background it shows the no-background message even when no
    stage is valid either, and otherwise the no-stages message. The stages
    it keeps are the raw elements with a library, in their order, and each
    of them has a machine name. *)
Theorem GameMap_constructor_content (backgroundImage : bool)
    (raw : list GameMap.Element) :
  (GameMap.content (GameMap.constructor backgroundImage raw) = true <->
   backgroundImage = true /\
   exists e, In e raw /\ GameMap.has_library e = true) /\
  (backgroundImage = false ->
   GameMap.message (GameMap.constructor backgroundImage raw)
   = Some "l10n.noBackground") /\
  (backgroundImage = true ->
   (forall e, In e raw -> GameMap.has_library e = false) ->
   GameMap.message (GameMap.constructor backgroundImage raw)
   = Some "l10n.noStages") /\
  GameMap.elements (GameMap.constructor backgroundImage raw)
  = filter GameMap.has_library raw /\
  (forall e previous,
     In e (GameMap.elements (GameMap.constructor backgroundImage raw)) ->
     exists name,
       Exercise.machineName
         {| contentType := GameMap.element_contentType e;
            previousState := previous |} = Some name).
Proof.
  assert (K : GameMap.elements (GameMap.constructor backgroundImage raw)
              = filter GameMap.has_library raw).
  { unfold GameMap.constructor.
    destruct (negb backgroundImage); [reflexivity|].
    destruct (List.length (GameMap.sanitize raw) =? 0)%nat; reflexivity. }
  split; [|split; [|split; [|split]]].
  - unfold GameMap.constructor.
    destruct backgroundImage; simpl.
    + destruct (GameMap.sanitize raw) as [|e stages] eqn:E; simpl.
      * split; [discriminate|]. intros (_ & e & He & Hl).
        pose proof (proj1 (sanitize_empty raw) E) as E'.
        rewrite (E' e He) in Hl. discriminate.
      * split; trivial. intros _. split; trivial.
        exists e. apply filter_In. unfold GameMap.sanitize in E.
        rewrite E. now left.
    + split; [discriminate|]. intros [H _]. discriminate.
  - intros ->. reflexivity.
  - intros -> H. pose proof (proj2 (sanitize_empty raw) H) as H'.
    unfold GameMap.constructor. simpl. now rewrite H'.
  - exact K.
  - intros e previous He. rewrite K in He. apply filter_In in He.
    destruct He as [_ He]. unfold GameMap.has_library in He.
    unfold Exercise.machineName. simpl.
    destruct (GameMap.element_contentType e) as [ct|]; [|discriminate].
    destruct (library ct) as [lib|]; [|discriminate].
    now exists (Exercise.first_word lib).
Qed.

(** X15: [getCurrentState] answers the state of the content when the map
    built its content, and raises a [TypeError] on every map that shows a
    message instead: no background image, or no element with a library. *)
Theorem GameMap_getCurrentState (backgroundImage : bool)
    (raw : list GameMap.Element) (contentState : value) :
  GameMap.getCurrentState (GameMap.constructor backgroundImage raw)
    contentState
  = if backgroundImage && existsb GameMap.has_library raw
    then Some contentState else None.
Proof.
  unfold GameMap.getCurrentState, GameMap.constructor.
  destruct backgroundImage; simpl; [|reflexivity].
  assert (E : (List.length (GameMap.sanitize raw) =? 0)%nat
              = negb (existsb GameMap.has_library raw)).
  { unfold GameMap.sanitize. induction raw as [|e raw IH]; simpl; trivial.
    destruct (GameMap.has_library e); simpl; trivial. }
  rewrite E. now destruct (existsb GameMap.has_library raw).
Qed.

(** ** Beyond the claims: the queries *)

(** X16: the queries never throw and never change the stage. On a stage
    without instance [getScore] and [getMaxScore] answer 0 and
    [getAnswerGiven] answers [false]. On a stage with an instance the two
    score queries answer the instance's own answer when it is a number and
    0 when the instance has no such query or answers anything else, and
    [getAnswerGiven] answers the instance's own answer unless the query is
    missing or answers [null] or [undefined], in which case it answers
    [false]. *)
Theorem queries_default (w : World) :
  (slot_truthy (instance (this w)) = false ->
   Exercise.getScore w = Ok (VNumber 0) w /\
   Exercise.getMaxScore w = Ok (VNumber 0) w /\
   Exercise.getAnswerGiven w = Ok (VBool false) w) /\
  (forall i, instance (this w) = SObject i ->
   Exercise.getScore w
   = Ok match H5P.getScore i with
        | Some (VNumber n) => VNumber n
        | _ => VNumber 0
        end w /\
   Exercise.getMaxScore w
   = Ok match H5P.getMaxScore i with
        | Some (VNumber n) => VNumber n
        | _ => VNumber 0
        end w /\
   Exercise.getAnswerGiven w
   = Ok match H5P.getAnswerGiven i with
        | Some (VBool b) => VBool b
        | Some (VNumber n) => VNumber n
        | _ => VBool false
        end w).
Proof.
  split.
  - intros H.
    assert (Q : forall m, Exercise.query m (instance (this w)) = VUndefined).
    { intros m. destruct (instance (this w)); [reflexivity..|discriminate]. }
    unfold Exercise.getScore, Exercise.getMaxScore, Exercise.getAnswerGiven,
      bind, get, ret.
    rewrite !Q. repeat split.
  - intros i Hi.
    unfold Exercise.getScore, Exercise.getMaxScore, Exercise.getAnswerGiven,
      bind, get, ret, Exercise.query.
    rewrite Hi. repeat split.
    + now destruct (H5P.getScore i) as [[| |b|n]|].
    + now destruct (H5P.getMaxScore i) as [[| |b|n]|].
    + now destruct (H5P.getAnswerGiven i) as [[| |b|n]|].
Qed.

(** ** Beyond the claims: what no sequence of calls undoes *)

Section Respects.

Variables R T : World -> World -> Prop.
Hypothesis R_refl : forall w, R w w.
Hypothesis T_refl : forall w, T w w.
Hypothesis R_trans : forall a b c, R a b -> R b c -> R a c.
Hypothesis RT_trans : forall a b c, R a b -> T b c -> T a c.

Lemma respects_ret {A : Type} (a : A) : respects R T (ret a).
Proof. intros w. apply R_refl. Qed.

Lemma respects_throw {A : Type} : respects R T (@throw A).
Proof. intros w. apply T_refl. Qed.

Lemma respects_get : respects R T get.
Proof. intros w. apply R_refl. Qed.

Lemma respects_modify (f : World -> World) :
  (forall w, R w (f w)) -> respects R T (modify f).
Proof. intros H w. apply H. Qed.

Lemma respects_bind {A B : Type} (m : M A) (f : A -> M B) :
  respects R T m -> (forall a, respects R T (f a)) ->
  respects R T (bind m f).
Proof.
  intros Hm Hf w. unfold bind.
  specialize (Hm w). destruct (m w) as [a w1|w1|]; trivial.
  specialize (Hf a w1). destruct (f a w1) as [b w2|w2|]; trivial.
  - now apply R_trans with w1.
  - now apply RT_trans with w1.
Qed.

Lemma respects_forEach {A : Type} (xs : list A) (f : A -> M unit) :
  (forall x, respects R T (f x)) -> respects R T (forEach xs f).
Proof.
  intros H. induction xs as [|x xs IH]; simpl.
  - apply respects_ret.
  - apply respects_bind; trivial.
Qed.

(** The dispatcher keeps what logging a trigger, the relay around a
    dispatch and [trackXAPI] keep. *)
Lemma respects_trigger :
  (forall o n w, R w (log (Triggered o n) w)) ->
  (forall target (m : M unit),
     respects R T m ->
     respects R T (modify (set_bubblingUpwards target true) ;;
                   m ;;
                   modify (set_bubblingUpwards target false))) ->
  (forall ev, respects R T (Exercise.trackXAPI ev)) ->
  forall fuel o n ev, respects R T (Exercise.trigger fuel o n ev).
Proof.
  intros Hlog Hrelay Htrack.
  induction fuel as [|fuel IH]; intros o n ev.
  - intros w. exact I.
  - cbn [Exercise.trigger].
    apply respects_bind; [apply respects_modify; intros w; apply Hlog|].
    intros _. apply respects_bind; [apply respects_get|].
    intros w. apply respects_forEach. intros h.
    destruct h as [name target|origin name targets|]; cbn [Exercise.run_handler].
    + apply Hrelay, IH.
    + apply respects_bind; [apply respects_get|]. intros w1.
      destruct (bubblingUpwards origin w1); [apply respects_ret|].
      apply respects_forEach. intros target.
      apply respects_bind; [apply respects_get|]. intros w2.
      destruct (isAttached (this w2)); [apply IH | apply respects_ret].
    + apply Htrack.
Qed.

End Respects.

Lemma instantiations_log (e : obs) (t : list obs) :
  is_instantiation e = false ->
  instantiations (t ++ [e]) = instantiations t.
Proof.
  intros H. unfold instantiations. rewrite filter_app. simpl. rewrite H.
  now rewrite app_nil_r.
Qed.

Lemma fixed_refl (w : World) : fixed w w.
Proof. intros _. repeat split. Qed.

Lemma fixed_trans (a b c : World) : fixed a b -> fixed b c -> fixed a c.
Proof.
  intros Hab Hbc Ha. destruct (Hab Ha) as (I1 & M1 & L1 & N1).
  assert (Hb : slot_truthy (instance (this b)) = true) by now rewrite I1.
  destruct (Hbc Hb) as (I2 & M2 & L2 & N2).
  repeat split; congruence.
Qed.

Lemma stays_attached_refl (w : World) : stays_attached w w.
Proof. intros H. exact H. Qed.

Lemma stays_attached_trans (a b c : World) :
  stays_attached a b -> stays_attached b c -> stays_attached a c.
Proof. intros Hab Hbc Ha. apply Hbc, Hab, Ha. Qed.

Lemma no_new_flag_refl (w : World) : no_new_flag w w.
Proof. split; trivial. Qed.

Lemma no_new_flag_trans (a b c : World) :
  no_new_flag a b -> no_new_flag b c -> no_new_flag a c.
Proof. intros [M1 I1] [M2 I2]. split; auto. Qed.

(** One step through a computation built from [bind], branches and the
    primitives; [solve_step] settles what a primitive does to the world. *)
Ltac respects_with refl trefl trans rtrans solve_step :=
  repeat match goal with
  | |- respects _ _ (let _ := _ in _) => cbv zeta
  | |- respects _ _ (bind _ _) =>
      apply (respects_bind _ _ trans rtrans); [|intros ?]
  | |- respects _ _ (if ?c then _ else _) => destruct c
  | |- respects _ _ (match ?x with _ => _ end) => destruct x
  | |- respects _ _ (ret _) => apply (respects_ret _ _ refl)
  | |- respects _ _ throw => apply (respects_throw _ _ trefl)
  | |- respects _ _ get => apply (respects_get _ _ refl)
  | |- respects _ _ (modify _) =>
      apply respects_modify; intros ?; solve_step
  | |- respects _ _ (update _) =>
      apply respects_modify; intros ?; solve_step
  | |- respects _ _ (emit _) =>
      apply respects_modify; intros ?; solve_step
  end.

Ltac fixed_step :=
  intros _; simpl; repeat split; apply instantiations_log; reflexivity.

Ltac fixed_tac :=
  respects_with fixed_refl fixed_refl fixed_trans fixed_trans fixed_step.

Ltac attached_step := intros H; simpl; first [exact H | reflexivity].

Ltac attached_tac :=
  respects_with stays_attached_refl stays_attached_refl
    stays_attached_trans stays_attached_trans attached_step.

Lemma fixed_setState (request : arg) (force : bool) :
  respects fixed fixed (Exercise.setState request force).
Proof. unfold Exercise.setState. fixed_tac. Qed.

Lemma fixed_trackXAPI (ev : event) :
  respects fixed fixed (Exercise.trackXAPI ev).
Proof.
  pose proof fixed_setState as S.
  unfold Exercise.trackXAPI. fixed_tac; apply S.
Qed.

Lemma fixed_showSolutions : respects fixed fixed Exercise.showSolutions.
Proof. unfold Exercise.showSolutions. fixed_tac. Qed.

Lemma fixed_attachInstance (host : Host) :
  respects fixed fixed (Exercise.attachInstance host).
Proof. unfold Exercise.attachInstance. fixed_tac. Qed.

Lemma fixed_handleViewed (host : Host) :
  respects fixed fixed (Exercise.handleViewed host).
Proof.
  pose proof fixed_setState as S. pose proof fixed_showSolutions as V.
  pose proof (fixed_attachInstance host) as A.
  unfold Exercise.handleViewed. fixed_tac; trivial.
Qed.

Lemma fixed_reset : respects fixed fixed Exercise.reset.
Proof.
  pose proof fixed_setState as S.
  unfold Exercise.reset. fixed_tac; trivial.
Qed.

Lemma fixed_initializeInstance (host : Host) :
  respects fixed fixed (Exercise.initializeInstance host).
Proof.
  intros w. destruct (instance (this w)) as [| |i] eqn:Hi.
  - destruct (Exercise.initializeInstance host w); trivial;
      intros H; rewrite Hi in H; discriminate.
  - destruct (Exercise.initializeInstance host w); trivial;
      intros H; rewrite Hi in H; discriminate.
  - rewrite initializeInstance_settled by (rewrite Hi; discriminate).
    apply fixed_refl.
Qed.

Lemma fixed_trigger (fuel : nat) (o : obj) (n : string) (ev : event) :
  respects fixed fixed (Exercise.trigger fuel o n ev).
Proof.
  apply (respects_trigger fixed fixed fixed_refl fixed_trans fixed_trans).
  - intros o' n' w. fixed_step.
  - intros target m Hm. fixed_tac; trivial.
  - apply fixed_trackXAPI.
Qed.

Lemma attached_setState (request : arg) (force : bool) :
  respects stays_attached stays_attached (Exercise.setState request force).
Proof. unfold Exercise.setState. attached_tac. Qed.

Lemma attached_trackXAPI (ev : event) :
  respects stays_attached stays_attached (Exercise.trackXAPI ev).
Proof.
  pose proof attached_setState as S.
  unfold Exercise.trackXAPI. attached_tac; apply S.
Qed.

Lemma attached_showSolutions :
  respects stays_attached stays_attached Exercise.showSolutions.
Proof. unfold Exercise.showSolutions. attached_tac. Qed.

Lemma attached_attachInstance (host : Host) :
  respects stays_attached stays_attached (Exercise.attachInstance host).
Proof. unfold Exercise.attachInstance. attached_tac. Qed.

Lemma attached_handleViewed (host : Host) :
  respects stays_attached stays_attached (Exercise.handleViewed host).
Proof.
  pose proof attached_setState as S. pose proof attached_showSolutions as V.
  pose proof (attached_attachInstance host) as A.
  unfold Exercise.handleViewed. attached_tac; trivial.
Qed.

Lemma attached_reset : respects stays_attached stays_attached Exercise.reset.
Proof.
  pose proof attached_setState as S.
  unfold Exercise.reset. attached_tac; trivial.
Qed.

Lemma attached_initializeInstance (host : Host) :
  respects stays_attached stays_attached (Exercise.initializeInstance host).
Proof.
  unfold Exercise.initializeInstance, Exercise.fitVideo, Exercise.fitAudio,
    Exercise.bubbleUp, Exercise.bubbleDown.
  attached_tac.
Qed.

Lemma attached_trigger (fuel : nat) (o : obj) (n : string) (ev : event) :
  respects stays_attached stays_attached (Exercise.trigger fuel o n ev).
Proof.
  apply (respects_trigger stays_attached stays_attached
           stays_attached_refl stays_attached_trans stays_attached_trans).
  - intros o' n' w. attached_step.
  - intros target m Hm. attached_tac; trivial.
  - apply attached_trackXAPI.
Qed.

Lemma respects_query (R : World -> World -> Prop) (m : M value) :
  (forall w, R w w) ->
  (forall w, m w = Throw w \/ exists v, m w = Ok v w) ->
  respects R R (m ;; ret tt).
Proof.
  intros Hr Hm w. unfold bind, ret.
  destruct (Hm w) as [-> | [v ->]]; apply Hr.
Qed.

Lemma query_pure (c : call) (host : Host) (fuel : nat)
    (R : World -> World -> Prop) :
  (forall w, R w w) ->
  match c with
  | DoGetXAPIData | DoGetScore | DoGetMaxScore | DoGetAnswerGiven =>
      respects R R (perform host fuel c)
  | _ => True
  end.
Proof.
  intros Hr. destruct c; trivial; cbn [perform];
    apply respects_query; trivial; intros w;
    unfold Exercise.getXAPIData, Exercise.getScore, Exercise.getMaxScore,
      Exercise.getAnswerGiven, bind, get, ret, throw;
    eauto.
  destruct (instance (this w)) as [| |i]; auto.
  destruct (H5P.getXAPIData i); eauto.
Qed.

Lemma fixed_perform (host : Host) (fuel : nat) (c : call) :
  respects fixed fixed (perform host fuel c).
Proof.
  pose proof (query_pure c host fuel fixed fixed_refl) as Q.
  destruct c; trivial; cbn [perform].
  - apply fixed_setState.
  - apply fixed_trackXAPI.
  - apply fixed_initializeInstance.
  - apply fixed_showSolutions.
  - apply fixed_attachInstance.
  - apply fixed_handleViewed.
  - apply fixed_reset.
  - apply fixed_trigger.
Qed.

Lemma attached_perform (host : Host) (fuel : nat) (c : call) :
  respects stays_attached stays_attached (perform host fuel c).
Proof.
  pose proof (query_pure c host fuel stays_attached stays_attached_refl)
    as Q.
  destruct c; trivial; cbn [perform].
  - apply attached_setState.
  - apply attached_trackXAPI.
  - apply attached_initializeInstance.
  - apply attached_showSolutions.
  - apply attached_attachInstance.
  - apply attached_handleViewed.
  - apply attached_reset.
  - apply attached_trigger.
Qed.

(** X17: whatever the map controller, the instance and the main instance
    do to a stage that has its instance (any sequence of [setState],
    [trackXAPI], [initializeInstance], [showSolutions], [attachInstance],
    [handleViewed], [reset], queries and events, ending in a return or in
    an exception), the instance is never replaced, the listeners stay the
    ones installed, the factory is never asked again, and an attached
    stage stays attached. *)
Theorem instance_fixed_across_calls (host : Host) (fuel : nat)
    (calls : list call) (w : World) :
  slot_truthy (instance (this w)) = true ->
  match forEach calls (perform host fuel) w with
  | Ok _ w' | Throw w' =>
      instance (this w') = instance (this w) /\
      listenersMain w' = listenersMain w /\
      listenersInst w' = listenersInst w /\
      instantiations (trace w') = instantiations (trace w) /\
      (isAttached (this w) = true -> isAttached (this w') = true)
  | OutOfFuel => True
  end.
Proof.
  intros Hi.
  pose proof (respects_forEach fixed fixed fixed_refl fixed_trans
                fixed_trans calls (perform host fuel)
                (fixed_perform host fuel) w) as F.
  pose proof (respects_forEach stays_attached stays_attached
                stays_attached_refl stays_attached_trans
                stays_attached_trans calls (perform host fuel)
                (attached_perform host fuel) w) as A.
  destruct (forEach calls (perform host fuel) w) as [[] w'|w'|]; trivial;
    destruct (F Hi) as (I1 & M1 & L1 & N1); repeat split; trivial.
Qed.

Lemma instance_fixed_across_calls_witness :
  let host := Examples.host_giving (SObject Examples.quiz) in
  let calls :=
    [ DoHandleViewed; DoTrigger Inst "xAPI" (EvXAPI (VNumber 3));
      DoTrigger Main "resize" EvPlain; DoReset; DoInitializeInstance;
      DoGetScore; DoSetState (Name "finished") false ] in
  match forEach calls (perform host 5) Examples.quiz_stage with
  | Ok _ w' | Throw w' =>
      instance (this w') = instance (this Examples.quiz_stage) /\
      listenersMain w' = listenersMain Examples.quiz_stage /\
      listenersInst w' = listenersInst Examples.quiz_stage /\
      instantiations (trace w') = instantiations (trace Examples.quiz_stage) /\
      (isAttached (this Examples.quiz_stage) = true ->
       isAttached (this w') = true)
  | OutOfFuel => True
  end.
Proof.
  intros host calls.
  apply (instance_fixed_across_calls host 5 calls Examples.quiz_stage).
  reflexivity.
Defined.

Ltac flag_step := split; intros H; simpl; exact H.

Ltac flag_tac :=
  respects_with no_new_flag_refl (fun w : World => I)
    no_new_flag_trans
    (fun (a b c : World) (_ : no_new_flag a b) (_ : any_world b c) => I)
    flag_step.

Lemma flag_setState (request : arg) (force : bool) :
  respects no_new_flag any_world (Exercise.setState request force).
Proof. unfold Exercise.setState. flag_tac. Qed.

Lemma flag_trackXAPI (ev : event) :
  respects no_new_flag any_world (Exercise.trackXAPI ev).
Proof.
  pose proof flag_setState as S.
  unfold Exercise.trackXAPI. flag_tac; apply S.
Qed.

Lemma flag_showSolutions :
  respects no_new_flag any_world Exercise.showSolutions.
Proof. unfold Exercise.showSolutions. flag_tac. Qed.

Lemma flag_attachInstance (host : Host) :
  respects no_new_flag any_world (Exercise.attachInstance host).
Proof. unfold Exercise.attachInstance. flag_tac. Qed.

Lemma flag_handleViewed (host : Host) :
  respects no_new_flag any_world (Exercise.handleViewed host).
Proof.
  pose proof flag_setState as S. pose proof flag_showSolutions as V.
  pose proof (flag_attachInstance host) as A.
  unfold Exercise.handleViewed. flag_tac; trivial.
Qed.

Lemma flag_reset : respects no_new_flag any_world Exercise.reset.
Proof.
  pose proof flag_setState as S.
  unfold Exercise.reset. flag_tac; trivial.
Qed.

Lemma flag_initializeInstance (host : Host) :
  respects no_new_flag any_world (Exercise.initializeInstance host).
Proof.
  unfold Exercise.initializeInstance, Exercise.fitVideo, Exercise.fitAudio,
    Exercise.bubbleUp, Exercise.bubbleDown.
  flag_tac.
Qed.

(** The relay around a dispatch: the flag it sets is cleared when the
    dispatch returns, and the other flag is as the dispatch leaves it. *)
Lemma flag_relay (target : obj) (m : M unit) :
  respects no_new_flag any_world m ->
  respects no_new_flag any_world
    (modify (set_bubblingUpwards target true) ;;
     m ;;
     modify (set_bubblingUpwards target false)).
Proof.
  intros Hm w. unfold bind, modify.
  specialize (Hm (set_bubblingUpwards target true w)).
  destruct (m (set_bubblingUpwards target true w)) as [[] w1|w1|];
    try exact I.
  destruct Hm as [HM HI].
  destruct target; split; simpl; auto.
Qed.

Lemma flag_trigger (fuel : nat) (o : obj) (n : string) (ev : event) :
  respects no_new_flag any_world (Exercise.trigger fuel o n ev).
Proof.
  apply (respects_trigger no_new_flag any_world no_new_flag_refl
           no_new_flag_trans
           (fun (a b c : World) (_ : no_new_flag a b) (_ : any_world b c)
            => I)).
  - intros o' n' w. flag_step.
  - apply flag_relay.
  - apply flag_trackXAPI.
Qed.

Lemma flag_perform (host : Host) (fuel : nat) (c : call) :
  respects no_new_flag any_world (perform host fuel c).
Proof.
  destruct c; cbn [perform].
  - apply flag_setState.
  - apply flag_trackXAPI.
  - apply flag_initializeInstance.
  - apply flag_showSolutions.
  - apply flag_attachInstance.
  - apply flag_handleViewed.
  - apply flag_reset.
  - unfold Exercise.getXAPIData. flag_tac.
  - unfold Exercise.getScore. flag_tac.
  - unfold Exercise.getMaxScore. flag_tac.
  - unfold Exercise.getAnswerGiven. flag_tac.
  - apply flag_trigger.
Qed.

(** X18: no sequence of calls that returns leaves a [bubblingUpwards] flag
    set that was not set before: the flag an upward relay sets is always
    cleared again by the time the call returns, however the dispatch
    nests. In particular, from a stage with both flags unset every
    returning sequence of calls ends with both flags unset. *)
Theorem flags_cleared_across_calls (host : Host) (fuel : nat)
    (calls : list call) (w w' : World) :
  forEach calls (perform host fuel) w = Ok tt w' ->
  (flagMain w = false -> flagMain w' = false) /\
  (flagInst w = false -> flagInst w' = false).
Proof.
  intros E.
  pose proof (respects_forEach no_new_flag any_world no_new_flag_refl
                no_new_flag_trans
                (fun (a b c : World) (_ : no_new_flag a b)
                     (_ : any_world b c) => I)
                calls (perform host fuel) (flag_perform host fuel) w) as F.
  rewrite E in F. exact F.
Qed.

Lemma flags_cleared_across_calls_witness :
  let host := Examples.host_giving (SObject Examples.quiz) in
  let calls :=
    [ DoHandleViewed; DoTrigger Inst "resize" EvPlain;
      DoTrigger Main "resize" EvPlain ] in
  let w' :=
    match forEach calls (perform host 5) Examples.quiz_stage with
    | Ok _ w' => w'
    | _ => Examples.quiz_stage
    end in
  (flagMain Examples.quiz_stage = false -> flagMain w' = false) /\
  (flagInst Examples.quiz_stage = false -> flagInst w' = false).
Proof.
  intros host calls w'.
  apply (flags_cleared_across_calls host 5 calls Examples.quiz_stage w').
  vm_compute. reflexivity.
Defined.

(** ** Beyond the claims: viewing a stage *)

(** A request for ['opened'] is silent exactly when the stored state is
    already the code it resolves to. *)
Lemma setState_opened_eq (w : World) :
  Exercise.setState (Name "opened") false w
  = if strict_eq (state (this w)) (opened_code (instance (this w)))
    then Ok tt w
    else Ok tt (stored (opened_code (instance (this w))) w).
Proof.
  rewrite (setState_name w "opened" 4 false) by reflexivity.
  rewrite setState_number.
  change (resolve w 4 false) with (opened_code (instance (this w))).
  unfold notifies.
  assert (T : truthy (opened_code (instance (this w))) = true).
  { unfold opened_code. now destruct (declared_task _). }
  destruct (strict_eq (state (this w)) (opened_code (instance (this w))))
    eqn:E.
  - apply strict_eq_true in E. now rewrite E, T.
  - now rewrite orb_true_r.
Qed.

Lemma handleViewed_settled (host : Host) (w : World) :
  isAttached (this w) = true ->
  isShowingSolutions (this w) = false ->
  state (this w) = opened_code (instance (this w)) ->
  Exercise.handleViewed host w = Ok tt (log RequestAnimationFrame w).
Proof.
  intros HA HS HO.
  assert (A : Exercise.attachInstance host w = Ok tt w).
  { unfold Exercise.attachInstance, bind, get, ret. now rewrite HA. }
  unfold Exercise.handleViewed.
  unfold bind at 1. rewrite A.
  unfold bind at 1, get at 1. rewrite HS.
  unfold bind at 1, ret at 1.
  unfold bind at 1. rewrite setState_opened_eq, HO, strict_eq_refl.
  reflexivity.
Qed.

Lemma handleViewed_result (host : Host) (w w1 : World) :
  Exercise.handleViewed host w = Ok tt w1 ->
  isAttached (this w1) = true /\
  state (this w1) = opened_code (instance (this w1)).
Proof.
  intros H.
  unfold Exercise.handleViewed in H. unfold bind at 1 in H.
  destruct (Exercise.attachInstance host w) as [[] wa|wa|] eqn:EA;
    try discriminate.
  apply attachInstance_attaches in EA. destruct EA as (HA & _).
  unfold bind at 1, get at 1 in H. unfold bind at 1 in H.
  assert (S : exists wb,
            (if isShowingSolutions (this wa)
             then Exercise.showSolutions else ret tt) wa = Ok tt wb /\
            isAttached (this wb) = true).
  { destruct (isShowingSolutions (this wa)).
    - unfold Exercise.showSolutions, bind, get, ret, emit, update, modify.
      destruct (instance (this wa)) as [| |i];
        [| |destruct (H5P.showSolutions i)]; eexists; split;
        try reflexivity; exact HA.
    - exists wa. split; [reflexivity | exact HA]. }
  destruct S as (wb & ES & HB). rewrite ES in H.
  unfold bind at 1 in H. rewrite setState_opened_eq in H.
  destruct (strict_eq (state (this wb)) (opened_code (instance (this wb))))
    eqn:E; unfold emit, modify in H; injection H as <-.
  - apply strict_eq_true in E. split; [exact HB | exact E].
  - split; [exact HB | reflexivity].
Qed.

(** X19: when [handleViewed] returns, the stage is attached and its state
    is the code ['opened'] resolves to ([opened] for a task, [cleared]
    otherwise); viewing it again (no solutions showing) neither attaches
    again nor invokes a callback: it only schedules another resize. *)
Theorem handleViewed_again (host : Host) (w w1 : World) :
  Exercise.handleViewed host w = Ok tt w1 ->
  isAttached (this w1) = true /\
  state (this w1) = opened_code (instance (this w1)) /\
  (isShowingSolutions (this w1) = false ->
   Exercise.handleViewed host w1 = Ok tt (log RequestAnimationFrame w1)).
Proof.
  intros H.
  destruct (handleViewed_result host w w1 H) as [GA GS].
  repeat split; trivial.
  intros HS. now apply handleViewed_settled.
Qed.

Lemma handleViewed_again_witness :
  let host := Examples.host_giving (SObject Examples.quiz) in
  isAttached (this Examples.opened_quiz_stage) = true /\
  state (this Examples.opened_quiz_stage)
  = opened_code (instance (this Examples.opened_quiz_stage)) /\
  (isShowingSolutions (this Examples.opened_quiz_stage) = false ->
   Exercise.handleViewed host Examples.opened_quiz_stage
   = Ok tt (log RequestAnimationFrame Examples.opened_quiz_stage)).
Proof.
  intros host.
  apply (handleViewed_again host Examples.quiz_stage
           Examples.opened_quiz_stage).
  vm_compute. reflexivity.
Defined.

(** X20: the resize that [handleViewed] schedules reaches the instance.
    On a stage with its instance and the installed relays, once
    [handleViewed] has returned, a ['resize'] raised by the main instance
    is delivered to the instance exactly once, and the flag of the main
    instance is unset again afterwards. *)
Theorem viewed_stage_is_resized (host : Host) (fuel : nat) (ev : event)
    (w w1 : World) :
  slot_truthy (instance (this w)) = true ->
  wired "resize" w ->
  flagMain w = false ->
  Exercise.handleViewed host w = Ok tt w1 ->
  (3 <= fuel)%nat ->
  exists w2,
    Exercise.trigger fuel Main "resize" ev w1 = Ok tt w2 /\
    deliveries Inst "resize" (trace w2)
    = S (deliveries Inst "resize" (trace w1)) /\
    flagMain w2 = false.
Proof.
  intros Hi [WI WM] HF H Hfuel.
  destruct (handleViewed_result host w w1 H) as [HA _].
  pose proof (fixed_handleViewed host w) as F.
  pose proof (flag_handleViewed host w) as G.
  rewrite H in F, G.
  destruct (F Hi) as (_ & LM & LI & _). destruct G as [GM _].
  assert (W1 : wired "resize" w1).
  { unfold wired. rewrite LM, LI. now split. }
  destruct fuel as [|[|[|fuel]]]; [lia|lia|lia|].
  rewrite (trigger_down_attached fuel "resize" ev w1 W1 (GM HF) HA).
  eexists. split; [reflexivity|]. split; [|reflexivity].
  cbn [after trace].
  change (Triggered Main "resize" :: relay_up "resize")
    with ([Triggered Main "resize"] ++ relay_up "resize").
  rewrite !deliveries_app.
  destruct (deliveries_relay_up "resize") as [_ ->].
  unfold deliveries at 2. simpl. lia.
Qed.

Lemma viewed_stage_is_resized_witness :
  exists w2,
    Exercise.trigger 3 Main "resize" EvMissing Examples.opened_quiz_stage
    = Ok tt w2 /\
    deliveries Inst "resize" (trace w2)
    = S (deliveries Inst "resize" (trace Examples.opened_quiz_stage)) /\
    flagMain w2 = false.
Proof.
  apply (viewed_stage_is_resized
           (Examples.host_giving (SObject Examples.quiz)) 3 EvMissing
           Examples.quiz_stage Examples.opened_quiz_stage).
  - reflexivity.
  - split; reflexivity.
  - reflexivity.
  - vm_compute. reflexivity.
  - lia.
Defined.

(** X21: solutions requested before a stage is viewed are shown again
    once it is: on a not yet attached stage whose instance can be attached
    and can show solutions, [showSolutions] followed by [handleViewed]
    calls the instance's [showSolutions] a second time, after [attach];
    with a [reset] in between the flag is cleared and the solutions are
    not shown again. *)
Theorem solutions_replayed_on_view (host : Host) (w : World) (i : Instance)
    (name : string) :
  instance (this w) = SObject i ->
  isAttached (this w) = false ->
  H5P.attach i = true ->
  libraryInfo i = Some name ->
  String.eqb name "H5P.Audio" = false ->
  H5P.showSolutions i = true ->
  exists w1 w2,
    (Exercise.showSolutions ;; Exercise.handleViewed host) w = Ok tt w1 /\
    trace w1
    = trace w
      ++ [CallShowSolutions; CallAttach; CallShowSolutions]
      ++ (if strict_eq (state (this w)) (opened_code (SObject i)) then []
          else [OnStateChanged (opened_code (SObject i))])
      ++ [RequestAnimationFrame] /\
    (Exercise.showSolutions ;; Exercise.reset ;; Exercise.handleViewed host)
      w = Ok tt w2 /\
    trace w2
    = trace w
      ++ [ CallShowSolutions; OnStateChanged (VNumber 0);
           RequestIdleCallback; CallAttach;
           OnStateChanged (opened_code (SObject i));
           RequestAnimationFrame ].
Proof.
  intros Hi HA Ht Hl Hn Hs.
  assert (Show : forall w', instance (this w') = SObject i ->
            Exercise.showSolutions w'
            = Ok tt (with_this (set_isShowingSolutions true)
                       (log CallShowSolutions w'))).
  { intros w' Hi'.
    unfold Exercise.showSolutions, bind, get, ret, emit, update, modify.
    now rewrite Hi', Hs. }
  assert (Attach : forall w', isAttached (this w') = false ->
            instance (this w') = SObject i ->
            Exercise.attachInstance host w'
            = Ok tt (with_this (set_isAttached true) (log CallAttach w'))).
  { intros w' HA' Hi'.
    unfold Exercise.attachInstance, bind, get, ret, emit, update, modify.
    now rewrite HA', Hi', Ht, Hl, Hn. }
  assert (Reset : forall w', isAttached (this w') = false ->
            Exercise.reset w'
            = Ok tt (with_this (set_isShowingSolutions false)
                       (log RequestIdleCallback
                          (stored (VNumber 0)
                             (with_this (set_score (VNumber 0)) w'))))).
  { intros w' HA'. unfold Exercise.reset.
    unfold bind at 1, update at 1, modify at 1.
    change (Val (states_get "unstarted")) with (Val (VNumber 0)).
    unfold bind at 1. rewrite setState_number.
    change (resolve (with_this (set_score (VNumber 0)) w') 0 false)
      with (VNumber 0).
    rewrite notifies_unstarted.
    unfold bind, get, ret, emit, update, modify. simpl. now rewrite HA'. }
  assert (View : forall w', isAttached (this w') = false ->
            instance (this w') = SObject i ->
            Exercise.handleViewed host w'
            = let wa := with_this (set_isAttached true)
                          (log CallAttach w') in
              let wb := if isShowingSolutions (this w')
                        then with_this (set_isShowingSolutions true)
                               (log CallShowSolutions wa)
                        else wa in
              Ok tt (log RequestAnimationFrame
                       (if strict_eq (state (this w'))
                             (opened_code (SObject i))
                        then wb
                        else stored (opened_code (SObject i)) wb))).
  { intros w' HA' Hi'. unfold Exercise.handleViewed.
    unfold bind at 1. rewrite (Attach w' HA' Hi').
    unfold bind at 1, get at 1.
    change (isShowingSolutions
              (this (with_this (set_isAttached true) (log CallAttach w'))))
      with (isShowingSolutions (this w')).
    cbv zeta.
    destruct (isShowingSolutions (this w')).
    - unfold bind at 1. rewrite Show by exact Hi'.
      unfold bind at 1. rewrite setState_opened_eq.
      unfold emit, modify.
      change (state (this (with_this (set_isShowingSolutions true)
                (log CallShowSolutions
                   (with_this (set_isAttached true) (log CallAttach w'))))))
        with (state (this w')).
      change (instance (this (with_this (set_isShowingSolutions true)
                (log CallShowSolutions
                   (with_this (set_isAttached true) (log CallAttach w'))))))
        with (instance (this w')).
      rewrite Hi'.
      now destruct (strict_eq (state (this w')) (opened_code (SObject i))).
    - unfold bind at 1, ret at 1.
      unfold bind at 1. rewrite setState_opened_eq.
      unfold emit, modify.
      change (state (this (with_this (set_isAttached true)
                             (log CallAttach w'))))
        with (state (this w')).
      change (instance (this (with_this (set_isAttached true)
                                (log CallAttach w'))))
        with (instance (this w')).
      rewrite Hi'.
      now destruct (strict_eq (state (this w')) (opened_code (SObject i))). }
  assert (E : strict_eq (VNumber 0) (opened_code (SObject i)) = false).
  { unfold opened_code. now destruct (declared_task _). }
  eexists. eexists. split; [|split; [|split]].
  - unfold bind at 1. rewrite (Show w Hi).
    rewrite View by assumption. reflexivity.
  - cbv zeta.
    change (state (this (with_this (set_isShowingSolutions true)
                           (log CallShowSolutions w))))
      with (state (this w)).
    destruct (strict_eq (state (this w)) (opened_code (SObject i))); simpl;
      now rewrite <- !app_assoc.
  - unfold bind at 1. rewrite (Show w Hi).
    unfold bind at 1. rewrite Reset by assumption.
    rewrite View by assumption. reflexivity.
  - cbv zeta.
    match goal with
    | |- context [strict_eq ?x (opened_code (SObject i))] =>
        change x with (VNumber 0)
    end.
    rewrite E. simpl. now rewrite <- !app_assoc.
Qed.

Lemma solutions_replayed_on_view_witness :
  let host := Examples.host_giving (SObject Examples.quiz) in
  let w := Examples.quiz_stage in
  exists w1 w2,
    (Exercise.showSolutions ;; Exercise.handleViewed host) w = Ok tt w1 /\
    trace w1
    = trace w
      ++ [CallShowSolutions; CallAttach; CallShowSolutions]
      ++ (if strict_eq (state (this w)) (opened_code (SObject Examples.quiz))
          then []
          else [OnStateChanged (opened_code (SObject Examples.quiz))])
      ++ [RequestAnimationFrame] /\
    (Exercise.showSolutions ;; Exercise.reset ;; Exercise.handleViewed host)
      w = Ok tt w2 /\
    trace w2
    = trace w
      ++ [ CallShowSolutions; OnStateChanged (VNumber 0);
           RequestIdleCallback; CallAttach;
           OnStateChanged (opened_code (SObject Examples.quiz));
           RequestAnimationFrame ].
Proof.
  intros host w.
  apply (solutions_replayed_on_view host w Examples.quiz "H5P.MultiChoice");
    reflexivity.
Defined.

(** ** Beyond the claims: names and codes of states *)

(** X22: a state name and its code are interchangeable: for every entry
    of the state table, [setState] with the name does exactly what
    [setState] with the code does, forced or not. *)
Theorem setState_names_are_codes (w : World) (name : string) (code : Z)
    (force : bool) :
  In (name, code) states ->
  Exercise.setState (Name name) force w
  = Exercise.setState (Val (VNumber code)) force w.
Proof.
  intros H. apply setState_name.
  unfold states in H. simpl in H.
  repeat (destruct H as [H | H]; [injection H as <- <-; reflexivity|]).
  contradiction.
Qed.

Lemma setState_names_are_codes_witness :
  Exercise.setState (Name "completed") false Examples.quiz_stage
  = Exercise.setState (Val (VNumber 5)) false Examples.quiz_stage.
Proof.
  apply (setState_names_are_codes Examples.quiz_stage "completed" 5 false).
  simpl. do 5 right. left. reflexivity.
Defined.

Lemma trigger_down_while_bubbling_witness :
  let w := set_bubblingUpwards Main true Examples.opened_quiz_stage in
  Exercise.trigger 1 Main "resize" EvPlain w
  = Ok tt (log (Triggered Main "resize") w).
Proof.
  intros w.
  apply (trigger_down_while_bubbling 0 "resize" EvPlain w).
  - split; reflexivity.
  - reflexivity.
Defined.

(** ** The map's constructor on a concrete parameter set *)

Example gamemap_drops_elements_without_library :
  let raw := [ Stages.element (Some "H5P.MultiChoice 1.16");
               Stages.element (Some "");
               Stages.element None;
               Stages.element (Some "H5P.Video 1.6") ] in
  GameMap.elements (GameMap.constructor true raw)
  = [ Stages.element (Some "H5P.MultiChoice 1.16");
      Stages.element (Some "H5P.Video 1.6") ] /\
  GameMap.content (GameMap.constructor true raw) = true /\
  GameMap.message (GameMap.constructor false raw)
  = Some "l10n.noBackground" /\
  GameMap.getCurrentState
    (GameMap.constructor true [Stages.element (Some "")]) VNull = None.
Proof. repeat split. Qed.
